(** * Storyline icon script: a model of [blender_storyline_icons.py]

    The script is glue code over the scripting interface of a 3D host
    application.  Every statement of the script is a call into the host
    (an operator, an attribute read or an attribute assignment), so the
    script is embedded as a program over a signature of host calls:

    - [call X] lists the host calls the script makes, with the type [X] of
      what each returns;
    - [Prog A] is the syntax of straight-line Python code over those calls
      (with the [try]/[except] construct of the language, which the script
      never uses);
    - [run h p s] runs a program against a host [h], threading the host
      state and stopping at the first exception;
    - [blender] is a reference model of the host: objects, materials, node
      trees, the world, the render settings, the files written and the
      console output.

    Numbers are the rationals their literals denote (the script never
    computes with them, it only hands them to the host).  Python references
    are handles into the host's stores; a variable that may hold [None] is
    an [option]. *)

From Stdlib Require Import ZArith QArith String DecimalString.
From Stdlib Require DecimalPos DecimalZ.
From stdpp Require Import base gmap strings list.

Open Scope string_scope.
Open Scope list_scope.

(** ** Values handed to the host *)

Definition vec3 : Type := Q * Q * Q.
Definition rgb : Type := Q * Q * Q.
Definition rgba : Type := Q * Q * Q * Q.

(** [c[:3]] on a four-component colour tuple. *)
Definition slice3 (c : rgba) : rgb :=
  let '(r, g, b, _) := c in (r, g, b).

#[global] Instance rgba_inhabited : Inhabited rgba :=
  populate (0%Q, 0%Q, 0%Q, 0%Q).

(** The module-level dictionary of brand colours. *)
Definition COLORS : gmap string rgba :=
  list_to_map
    [ ("soft_plum",   (0.533%Q, 0.329%Q, 0.816%Q, 1.0%Q));
      ("warm_ochre",  (0.894%Q, 0.702%Q, 0.388%Q, 1.0%Q));
      ("gentle_sage", (0.659%Q, 0.753%Q, 0.565%Q, 1.0%Q));
      ("ink_black",   (0.106%Q, 0.110%Q, 0.118%Q, 1.0%Q));
      ("soft_white",  (0.98%Q, 0.98%Q, 0.98%Q, 1.0%Q)) ].

(** [str(n)] for a Python integer, as an f-string renders it. *)
Definition str (n : Z) : string := NilZero.string_of_int (Z.to_int n).

(** [math.radians(180)]: the double closest to pi, by its shortest
    decimal representation. *)
Definition radians_180 : Q := 3.141592653589793%Q.

(** ** Handles *)

Definition objref : Type := nat.
Definition matref : Type := nat.

(** A datablock that owns a shader node tree. *)
Inductive datablock : Type :=
| Material (m : matref)
| World.

Record noderef : Type := NodeRef { node_owner : datablock; node_index : nat }.

Inductive socket_value : Type :=
| VFloat (x : Q)
| VColor (c : rgba).

Inductive primitive : Type :=
| Cylinder (radius depth : Q)
| Cube (size : Q)
| IcoSphere (radius : Q)
| Cone (radius1 depth : Q).

(** Attribute assignments (and the one method call, [materials.append])
    the script performs through an object reference. *)
Inductive obj_attr : Type :=
| Name (s : string)
| Location (v : vec3)
| Scale (v : vec3)
| RotationEuler (v : vec3)
| RotationEulerItem (i : nat) (x : Q)
| DataEnergy (x : Q)
| DataColor (c : rgb)
| DataMaterialsAppend (m : matref)
| ModifierLevels (modifier : string) (levels : Z).

Inductive render_attr : Type :=
| ResolutionX (n : Z)
| ResolutionY (n : Z)
| FilmTransparent (b : bool)
| Filepath (path : string).

Inductive pyexn : Type :=
| AttributeError (what : string)
| KeyError (key : string)
| IndexError
| ReferenceError
| RuntimeError (msg : string)
| TypeError (msg : string)
| OtherError (msg : string).

(** ** The host interface used by the script *)

Inductive call : Type -> Type :=
| ops_object_select_all (action : string) : call unit
| ops_object_delete (use_global : bool) : call unit
| ops_object_light_add (type : string) (location : vec3) : call unit
| ops_object_camera_add (location : vec3) : call unit
| ops_object_shade_smooth : call unit
| ops_object_modifier_add (type : string) : call unit
| ops_object_mode_set (mode : string) : call unit
| ops_mesh_primitive_add (shape : primitive) (location : vec3) : call unit
| ops_mesh_select_all (action : string) : call unit
| ops_mesh_select_mode (type : string) : call unit
| ops_render_render (write_still : bool) : call unit
| context_active_object : call (option objref)
| context_scene_world : call (option datablock)
| set_view_layer_active (o : option objref) : call unit
| set_scene_camera (o : option objref) : call unit
| set_render (a : render_attr) : call unit
| set_object (o : option objref) (a : obj_attr) : call unit
| data_materials_new (name : string) : call matref
| data_objects_contains (name : string) : call bool
| data_objects_getitem (name : string) : call objref
| data_objects_remove (o : objref) : call unit
| set_use_nodes (d : option datablock) (b : bool) : call unit
| nodes_clear (d : option datablock) : call unit
| nodes_new (d : option datablock) (type : string) : call noderef
| set_input_default (n : noderef) (input : string) (v : socket_value)
  : call unit
| links_new (d : option datablock) (from_node : noderef) (output : string)
    (to_node : noderef) (input : string) : call unit
| print (line : string) : call unit.

(** ** Programs *)

Inductive Prog (A : Type) : Type :=
| Ret (a : A)
| Do (X : Type) (c : call X) (k : X -> Prog A)
| Try (B : Type) (body : Prog B) (handler : pyexn -> Prog B)
    (k : B -> Prog A).

Arguments Ret {A} a.
Arguments Do {A X} c k.
Arguments Try {A B} body handler k.

Fixpoint bind {A B : Type} (p : Prog A) (f : A -> Prog B) : Prog B :=
  match p with
  | Ret a => f a
  | Do c k => Do c (fun x => bind (k x) f)
  | Try body handler k => Try body handler (fun x => bind (k x) f)
  end.

Definition host {X : Type} (c : call X) : Prog X := Do c Ret.

#[global] Instance Prog_ret : MRet Prog := @Ret.
#[global] Instance Prog_bind : MBind Prog :=
  fun A B f p => bind p f.

(** [for i, x in enumerate(l): body], with [i] counted from [start]. *)
Fixpoint for_enumerate {A : Type} (start : Z) (l : list A)
    (body : Z -> A -> Prog unit) : Prog unit :=
  match l with
  | [] => Ret tt
  | x :: l' => body start x ;; for_enumerate (start + 1) l' body
  end.

(** ** The script *)

Definition clear_scene : Prog unit :=
  host (ops_object_select_all "SELECT") ;;
  host (ops_object_delete false).

(** [None] for a keyword argument means the caller left it out. *)
Definition create_material (name : string) (color : rgba)
    (metallic roughness emission : option Q) : Prog matref :=
  let metallic := default 0.1%Q metallic in
  let roughness := default 0.3%Q roughness in
  let emission := default 0.0%Q emission in
  mat ← host (data_materials_new name);
  host (set_use_nodes (Some (Material mat)) true) ;;
  host (nodes_clear (Some (Material mat))) ;;
  bsdf ← host (nodes_new (Some (Material mat)) "ShaderNodeBsdfPrincipled");
  host (set_input_default bsdf "Base Color" (VColor color)) ;;
  host (set_input_default bsdf "Metallic" (VFloat metallic)) ;;
  host (set_input_default bsdf "Roughness" (VFloat roughness)) ;;
  host (set_input_default bsdf "Emission Strength" (VFloat emission)) ;;
  output ← host (nodes_new (Some (Material mat)) "ShaderNodeOutputMaterial");
  host (links_new (Some (Material mat)) bsdf "BSDF" output "Surface") ;;
  mret mat.

Definition setup_lighting : Prog unit :=
  world ← host context_scene_world;
  host (set_use_nodes world true) ;;
  host (nodes_clear world) ;;
  env_node ← host (nodes_new world "ShaderNodeTexEnvironment");
  background ← host (nodes_new world "ShaderNodeBackground");
  output ← host (nodes_new world "ShaderNodeOutputWorld");
  host (set_input_default background "Color"
          (VColor (0.1%Q, 0.08%Q, 0.12%Q, 1.0%Q))) ;;
  host (set_input_default background "Strength" (VFloat 0.3%Q)) ;;
  host (links_new world background "Background" output "Surface") ;;
  host (ops_object_light_add "SUN" (5%Q, 5%Q, 10%Q)) ;;
  key_light ← host context_active_object;
  host (set_object key_light (DataEnergy 3%Q)) ;;
  host (set_object key_light (DataColor (1.0%Q, 0.95%Q, 0.9%Q))) ;;
  host (ops_object_light_add "AREA" ((-3)%Q, 2%Q, 5%Q)) ;;
  fill_light ← host context_active_object;
  host (set_object fill_light (DataEnergy 1%Q)) ;;
  host (set_object fill_light (DataColor (slice3 (COLORS !!! "warm_ochre")))).

Definition setup_icon_camera : Prog unit :=
  has_default ← host (data_objects_contains "Camera");
  (if has_default : bool
   then old ← host (data_objects_getitem "Camera");
        host (data_objects_remove old)
   else mret tt) ;;
  host (ops_object_camera_add (4%Q, (-4)%Q, 3%Q)) ;;
  camera ← host context_active_object;
  host (set_object camera (Name "Icon_Camera")) ;;
  host (set_object camera (RotationEuler (1.1%Q, 0%Q, 0.785%Q))) ;;
  host (set_scene_camera camera).

Definition create_microphone_icon : Prog unit :=
  clear_scene ;;
  body_mat ← create_material "Microphone_Body" (COLORS !!! "soft_plum")
                (Some 0.3%Q) (Some 0.2%Q) None;
  grille_mat ← create_material "Microphone_Grille" (COLORS !!! "ink_black")
                (Some 0.8%Q) (Some 0.1%Q) None;
  stand_mat ← create_material "Microphone_Stand" (COLORS !!! "ink_black")
                (Some 0.5%Q) (Some 0.3%Q) None;
  host (ops_mesh_primitive_add (Cylinder 0.4%Q 1.2%Q) (0%Q, 0%Q, 1%Q)) ;;
  capsule ← host context_active_object;
  host (set_object capsule (Name "Microphone_Capsule")) ;;
  host ops_object_shade_smooth ;;
  host (set_object capsule (DataMaterialsAppend body_mat)) ;;
  host (ops_mesh_primitive_add (Cylinder 0.41%Q 0.8%Q) (0%Q, 0%Q, 1.2%Q)) ;;
  grille ← host context_active_object;
  host (set_object grille (Name "Microphone_Grille")) ;;
  host (set_object grille (DataMaterialsAppend grille_mat)) ;;
  host (ops_mesh_primitive_add (Cylinder 0.6%Q 0.1%Q) (0%Q, 0%Q, 0%Q)) ;;
  base ← host context_active_object;
  host (set_object base (Name "Microphone_Base")) ;;
  host (set_object base (DataMaterialsAppend stand_mat)) ;;
  host (ops_mesh_primitive_add (Cylinder 0.05%Q 1%Q) (0%Q, 0%Q, 0.5%Q)) ;;
  arm ← host context_active_object;
  host (set_object arm (Name "Microphone_Arm")) ;;
  host (set_object arm (DataMaterialsAppend stand_mat)) ;;
  setup_icon_camera ;;
  setup_lighting ;;
  host (print "✅ Microphone icon created!").

Definition create_conversation_bubble : Prog unit :=
  clear_scene ;;
  bubble_mat ← create_material "Bubble" (COLORS !!! "soft_plum")
                 None (Some 0.1%Q) (Some 0.1%Q);
  dot_mat ← create_material "Dots" (COLORS !!! "soft_white")
                 None None (Some 0.3%Q);
  host (ops_mesh_primitive_add (Cube 2%Q) (0%Q, 0%Q, 0.5%Q)) ;;
  bubble ← host context_active_object;
  host (set_object bubble (Name "Conversation_Bubble")) ;;
  host (ops_object_modifier_add "SUBSURF") ;;
  host (set_object bubble (ModifierLevels "Subdivision Surface" 2)) ;;
  host ops_object_shade_smooth ;;
  host (set_object bubble (DataMaterialsAppend bubble_mat)) ;;
  host (ops_mesh_primitive_add (IcoSphere 0.3%Q)
          ((-0.8)%Q, (-0.8)%Q, (-0.2)%Q)) ;;
  tail ← host context_active_object;
  host (set_object tail (Name "Bubble_Tail")) ;;
  host (set_object tail (DataMaterialsAppend bubble_mat)) ;;
  for_enumerate 0 [(-0.4)%Q; 0%Q; 0.4%Q] (fun i x_pos =>
    host (ops_mesh_primitive_add (IcoSphere 0.12%Q) (x_pos, 0%Q, 0.6%Q)) ;;
    dot ← host context_active_object;
    host (set_object dot (Name ("AI_Dot_" +:+ str (i + 1)))) ;;
    host (set_object dot (DataMaterialsAppend dot_mat))) ;;
  setup_icon_camera ;;
  setup_lighting ;;
  host (print "✅ Conversation bubble icon created!").

Definition create_book_icon : Prog unit :=
  clear_scene ;;
  cover_mat ← create_material "Book_Cover" (COLORS !!! "soft_plum")
                None (Some 0.4%Q) None;
  pages_mat ← create_material "Book_Pages" (COLORS !!! "soft_white")
                None (Some 0.8%Q) None;
  bookmark_mat ← create_material "Bookmark" (COLORS !!! "warm_ochre")
                None (Some 0.2%Q) None;
  host (ops_mesh_primitive_add (Cube 2%Q) (0%Q, 0%Q, 0%Q)) ;;
  book ← host context_active_object;
  host (set_object book (Name "Book_Cover")) ;;
  host (set_object book (Scale (1.2%Q, 0.1%Q, 1.6%Q))) ;;
  host (set_object book (DataMaterialsAppend cover_mat)) ;;
  host (ops_mesh_primitive_add (Cube 2%Q) (0%Q, 0.05%Q, 0%Q)) ;;
  pages ← host context_active_object;
  host (set_object pages (Name "Book_Pages")) ;;
  host (set_object pages (Scale (1.1%Q, 0.08%Q, 1.5%Q))) ;;
  host (set_object pages (DataMaterialsAppend pages_mat)) ;;
  host (ops_mesh_primitive_add (Cube 2%Q) (0.5%Q, 0%Q, 0.8%Q)) ;;
  bookmark ← host context_active_object;
  host (set_object bookmark (Name "Bookmark")) ;;
  host (set_object bookmark (Scale (0.1%Q, 0.12%Q, 0.8%Q))) ;;
  host (set_object bookmark (DataMaterialsAppend bookmark_mat)) ;;
  setup_icon_camera ;;
  setup_lighting ;;
  host (print "✅ Book icon created!").

Definition create_shield_icon : Prog unit :=
  clear_scene ;;
  shield_mat ← create_material "Shield" (COLORS !!! "warm_ochre")
                 (Some 0.2%Q) (Some 0.3%Q) (Some 0.05%Q);
  heart_mat ← create_material "Heart" (COLORS !!! "soft_plum")
                 None None (Some 0.1%Q);
  host (ops_mesh_primitive_add (Cylinder 1%Q 0.2%Q) (0%Q, 0%Q, 0%Q)) ;;
  shield ← host context_active_object;
  host (set_object shield (Name "Safety_Shield")) ;;
  host (set_view_layer_active shield) ;;
  host (ops_object_mode_set "EDIT") ;;
  host (ops_mesh_select_all "DESELECT") ;;
  host (ops_mesh_select_mode "VERT") ;;
  host (ops_object_mode_set "OBJECT") ;;
  host (set_object shield (DataMaterialsAppend shield_mat)) ;;
  host ops_object_shade_smooth ;;
  host (ops_mesh_primitive_add (IcoSphere 0.3%Q) (0%Q, 0.15%Q, 0.2%Q)) ;;
  heart1 ← host context_active_object;
  host (set_object heart1 (Name "Heart_Left")) ;;
  host (set_object heart1 (Location ((-0.15)%Q, 0.15%Q, 0.2%Q))) ;;
  host (set_object heart1 (DataMaterialsAppend heart_mat)) ;;
  host (ops_mesh_primitive_add (IcoSphere 0.3%Q) (0.15%Q, 0.15%Q, 0.2%Q)) ;;
  heart2 ← host context_active_object;
  host (set_object heart2 (Name "Heart_Right")) ;;
  host (set_object heart2 (DataMaterialsAppend heart_mat)) ;;
  host (ops_mesh_primitive_add (Cone 0.2%Q 0.4%Q) (0%Q, 0.1%Q, (-0.1)%Q)) ;;
  heart_point ← host context_active_object;
  host (set_object heart_point (Name "Heart_Point")) ;;
  host (set_object heart_point (RotationEulerItem 0 radians_180)) ;;
  host (set_object heart_point (DataMaterialsAppend heart_mat)) ;;
  setup_icon_camera ;;
  setup_lighting ;;
  host (print "✅ Shield icon created!").

Definition icons_dir : string :=
  "/Users/jamesfarmer/Application Prototype/Storyline/assets/icons/".

Definition render_icon (name : string) (size : option Z) : Prog unit :=
  let size := default 1024%Z size in
  host (set_render (ResolutionX size)) ;;
  host (set_render (ResolutionY size)) ;;
  host (set_render (FilmTransparent true)) ;;
  host (set_render
          (Filepath (icons_dir +:+ name +:+ "_" +:+ str size +:+ ".png"))) ;;
  host (ops_render_render true) ;;
  host (print ("✅ Rendered " +:+ name +:+ " icon at " +:+ str size +:+ "px")).

Definition create_all_storyline_icons : Prog unit :=
  host (print "🎨 Creating Storyline icons...") ;;
  create_microphone_icon ;;
  render_icon "microphone" (Some 1024%Z) ;;
  create_conversation_bubble ;;
  render_icon "conversation_bubble" (Some 1024%Z) ;;
  create_book_icon ;;
  render_icon "book" (Some 1024%Z) ;;
  create_shield_icon ;;
  render_icon "shield" (Some 1024%Z) ;;
  host (print "✅ All Storyline icons created!").

(** ** Running a program against a host

    A host is any function that, given a call and its state, returns the
    new state and either an exception or the call's answer.  A raising
    call still returns a state: whatever the host changed before it
    raised stays changed. *)

Inductive event : Type :=
| Event (X : Type) (c : call X) (r : pyexn + X).

Arguments Event {X} c r.

Definition raised (ev : event) : option pyexn :=
  match ev with
  | Event _ (inl e) => Some e
  | Event _ (inr _) => None
  end.

Section Run.
Context {St : Type}.
Variable h : forall X : Type, call X -> St -> St * (pyexn + X).

Fixpoint run {A : Type} (p : Prog A) (s : St) : St * (pyexn + A) :=
  match p with
  | Ret a => (s, inr a)
  | Do c k =>
      match h _ c s with
      | (s', inl e) => (s', inl e)
      | (s', inr x) => run (k x) s'
      end
  | Try body handler k =>
      match run body s with
      | (s', inr b) => run (k b) s'
      | (s', inl e) =>
          match run (handler e) s' with
          | (s'', inr b) => run (k b) s''
          | (s'', inl e') => (s'', inl e')
          end
      end
  end.

(** The host calls a run makes, in order, each with its outcome. *)
Fixpoint trace {A : Type} (p : Prog A) (s : St) : list event :=
  match p with
  | Ret _ => []
  | Do c k =>
      match h _ c s with
      | (_, inl e) => [Event c (inl e)]
      | (s', inr x) => Event c (inr x) :: trace (k x) s'
      end
  | Try body handler k =>
      trace body s ++
      match run body s with
      | (s', inr b) => trace (k b) s'
      | (s', inl e) =>
          trace (handler e) s' ++
          match run (handler e) s' with
          | (s'', inr b) => trace (k b) s''
          | (_, inl _) => []
          end
      end
  end.


End Run.

(** A program that contains no [try]/[except]. *)
Inductive no_handler : forall A : Type, Prog A -> Prop :=
| nh_Ret (A : Type) (a : A) : no_handler A (Ret a)
| nh_Do (A X : Type) (c : call X) (k : X -> Prog A) :
    (forall x, no_handler A (k x)) -> no_handler A (Do c k).

Arguments no_handler {A} p.

(** ** A reference model of the host

    One scene, whose objects are all selectable, so that the objects of
    the scene and [bpy.data.objects] coincide.  Names are stored as
    assigned.  A mesh is represented by the parameters of the primitive
    it was created from; the model carries no per-vertex data. *)

Inductive interaction_mode : Type := ObjectMode | EditMode.

Record modifier : Type := Modifier {
  mod_name : string;
  mod_type : string;
  mod_levels : option Z
}.

(** [M] is what a material slot holds: a handle in the host state, the
    material itself in a view of the scene. *)
Inductive obj_data (M : Type) : Type :=
| MeshData (shape : primitive) (smooth : bool) (slots : list M)
| LightData (type : string) (energy : option Q) (color : option rgb)
| CameraData.

Arguments MeshData {M} shape smooth slots.
Arguments LightData {M} type energy color.
Arguments CameraData {M}.

Record object (M : Type) : Type := Object {
  obj_name : string;
  obj_data_of : obj_data M;
  obj_location : vec3;
  obj_rotation_euler : vec3;
  obj_scale : vec3;
  obj_select : bool;
  obj_modifiers : list modifier
}.

Arguments Object {M}.
Arguments obj_name {M}.
Arguments obj_data_of {M}.
Arguments obj_location {M}.
Arguments obj_rotation_euler {M}.
Arguments obj_scale {M}.
Arguments obj_select {M}.
Arguments obj_modifiers {M}.

Record node : Type := Node {
  node_type : string;
  node_inputs : gmap string socket_value
}.

Record link : Type := Link {
  from_node_index : nat;
  from_socket : string;
  to_node_index : nat;
  to_socket : string
}.

Record node_tree : Type := NodeTree {
  nodes : list node;
  links : list link
}.

(** What a material and the world have in common. *)
Record shader : Type := Shader {
  use_nodes : bool;
  tree : option node_tree
}.

Record material : Type := Mat {
  mat_name : string;
  mat_shader : shader
}.

Record render_settings : Type := RenderSettings {
  resolution_x : Z;
  resolution_y : Z;
  film_transparent : bool;
  filepath : string
}.

(** A rendered image, as far as the model knows it: its size, whether the
    film was transparent, and the scene it was rendered from. *)
Record image : Type := Image {
  img_width : Z;
  img_height : Z;
  img_transparent : bool;
  img_scene : list (object (option material))
}.

Record Host : Type := MkHost {
  objects : list (objref * object matref);   (* newest first *)
  next_object : objref;
  active_object : option objref;
  mode : interaction_mode;
  scene_camera : option objref;
  materials : list (matref * material);      (* newest first *)
  next_material : matref;
  world : option shader;
  render : render_settings;
  mesh_select_mode : string;
  files : list (string * image);             (* in the order written *)
  stdout : list string
}.

Definition with_objects (v : list (objref * object matref)) (s : Host) : Host :=
  MkHost v (next_object s) (active_object s) (mode s) (scene_camera s)
    (materials s) (next_material s) (world s) (render s)
    (mesh_select_mode s) (files s) (stdout s).

Definition with_next_object (v : objref) (s : Host) : Host :=
  MkHost (objects s) v (active_object s) (mode s) (scene_camera s)
    (materials s) (next_material s) (world s) (render s)
    (mesh_select_mode s) (files s) (stdout s).

Definition with_active_object (v : option objref) (s : Host) : Host :=
  MkHost (objects s) (next_object s) v (mode s) (scene_camera s)
    (materials s) (next_material s) (world s) (render s)
    (mesh_select_mode s) (files s) (stdout s).

Definition with_mode (v : interaction_mode) (s : Host) : Host :=
  MkHost (objects s) (next_object s) (active_object s) v (scene_camera s)
    (materials s) (next_material s) (world s) (render s)
    (mesh_select_mode s) (files s) (stdout s).

Definition with_scene_camera (v : option objref) (s : Host) : Host :=
  MkHost (objects s) (next_object s) (active_object s) (mode s) v
    (materials s) (next_material s) (world s) (render s)
    (mesh_select_mode s) (files s) (stdout s).

Definition with_materials (v : list (matref * material)) (s : Host) : Host :=
  MkHost (objects s) (next_object s) (active_object s) (mode s)
    (scene_camera s) v (next_material s) (world s) (render s)
    (mesh_select_mode s) (files s) (stdout s).

Definition with_next_material (v : matref) (s : Host) : Host :=
  MkHost (objects s) (next_object s) (active_object s) (mode s)
    (scene_camera s) (materials s) v (world s) (render s)
    (mesh_select_mode s) (files s) (stdout s).

Definition with_world (v : option shader) (s : Host) : Host :=
  MkHost (objects s) (next_object s) (active_object s) (mode s)
    (scene_camera s) (materials s) (next_material s) v (render s)
    (mesh_select_mode s) (files s) (stdout s).

Definition with_render (v : render_settings) (s : Host) : Host :=
  MkHost (objects s) (next_object s) (active_object s) (mode s)
    (scene_camera s) (materials s) (next_material s) (world s) v
    (mesh_select_mode s) (files s) (stdout s).

Definition with_mesh_select_mode (v : string) (s : Host) : Host :=
  MkHost (objects s) (next_object s) (active_object s) (mode s)
    (scene_camera s) (materials s) (next_material s) (world s) (render s)
    v (files s) (stdout s).

Definition with_files (v : list (string * image)) (s : Host) : Host :=
  MkHost (objects s) (next_object s) (active_object s) (mode s)
    (scene_camera s) (materials s) (next_material s) (world s) (render s)
    (mesh_select_mode s) v (stdout s).

Definition with_stdout (v : list string) (s : Host) : Host :=
  MkHost (objects s) (next_object s) (active_object s) (mode s)
    (scene_camera s) (materials s) (next_material s) (world s) (render s)
    (mesh_select_mode s) (files s) v.

(** *** Stores keyed by handle: the first entry with the handle counts. *)

Definition same_handle (a b : nat) : bool := Nat.eqb a b.

Arguments same_handle : simpl never.

Fixpoint find {V : Type} (id : nat) (l : list (nat * V)) : option V :=
  match l with
  | [] => None
  | (i, v) :: l' => if same_handle i id then Some v else find id l'
  end.

Fixpoint update {V : Type} (id : nat) (v : V) (l : list (nat * V))
  : list (nat * V) :=
  match l with
  | [] => []
  | (i, w) :: l' =>
      if same_handle i id then (i, v) :: l' else (i, w) :: update id v l'
  end.

Definition remove {V : Type} (id : nat) (l : list (nat * V))
  : list (nat * V) :=
  List.filter (fun e => negb (same_handle (fst e) id)) l.

Arguments remove : simpl never.

Definition ids {V : Type} (l : list (nat * V)) : list nat := map fst l.

(** A reference the host holds is dropped when its object is gone. *)
Definition live (l : list (objref * object matref)) (o : option objref)
  : option objref :=
  match o with
  | Some id => match find id l with Some _ => Some id | None => None end
  | None => None
  end.

Definition set_objects (l : list (objref * object matref)) (s : Host) : Host :=
  with_scene_camera (live l (scene_camera s))
    (with_active_object (live l (active_object s)) (with_objects l s)).

(** *** Views *)

Definition resolve (s : Host) (o : object matref) : object (option material) :=
  Object (obj_name o)
    match obj_data_of o with
    | MeshData shape smooth slots =>
        MeshData shape smooth (map (fun m => find m (materials s)) slots)
    | LightData type energy color => LightData type energy color
    | CameraData => CameraData
    end
    (obj_location o) (obj_rotation_euler o) (obj_scale o) (obj_select o)
    (obj_modifiers o).

(** The objects of the scene, oldest first, with their materials. *)
Definition scene_objects (s : Host) : list (object (option material)) :=
  rev (map (fun e => resolve s (snd e)) (objects s)).

(** The camera the scene renders through. *)
Definition scene_camera_object (s : Host) : option (object (option material)) :=
  match scene_camera s with
  | Some id => resolve s <$> find id (objects s)
  | None => None
  end.

(** *** Objects *)

Definition set_select (b : bool) (o : object matref) : object matref :=
  Object (obj_name o) (obj_data_of o) (obj_location o)
    (obj_rotation_euler o) (obj_scale o) b (obj_modifiers o).

Definition set_data (d : obj_data matref) (o : object matref) : object matref :=
  Object (obj_name o) d (obj_location o) (obj_rotation_euler o)
    (obj_scale o) (obj_select o) (obj_modifiers o).

Definition set_modifiers (ms : list modifier) (o : object matref)
  : object matref :=
  Object (obj_name o) (obj_data_of o) (obj_location o)
    (obj_rotation_euler o) (obj_scale o) (obj_select o) ms.

Definition map_objects (f : object matref -> object matref)
    (l : list (objref * object matref)) : list (objref * object matref) :=
  map (fun e => (fst e, f (snd e))) l.

(** A freshly added object: at the given location, unrotated, unscaled,
    selected. *)
Definition new_object (name : string) (d : obj_data matref) (loc : vec3)
  : object matref :=
  Object name d loc (0%Q, 0%Q, 0%Q) (1%Q, 1%Q, 1%Q) true [].

(** Adding an object deselects the others and makes the new one active. *)
Definition add_object (o : object matref) (s : Host) : Host :=
  let id := next_object s in
  with_active_object (Some id)
    (with_next_object (S id)
       (with_objects ((id, o) :: map_objects (set_select false) (objects s)) s)).

Definition primitive_name (p : primitive) : string :=
  match p with
  | Cylinder _ _ => "Cylinder"
  | Cube _ => "Cube"
  | IcoSphere _ => "Icosphere"
  | Cone _ _ => "Cone"
  end.

Definition light_name (type : string) : option string :=
  if String.eqb type "SUN" then Some "Sun"
  else if String.eqb type "AREA" then Some "Area"
  else if String.eqb type "POINT" then Some "Point"
  else if String.eqb type "SPOT" then Some "Spot"
  else None.

(** The name the host gives a new modifier: a subdivision surface
    modifier is named "Subdivision". *)
Definition modifier_name (type : string) : string :=
  if String.eqb type "SUBSURF" then "Subdivision" else type.

Definition shade_smooth (o : object matref) : object matref :=
  match obj_select o, obj_data_of o with
  | true, MeshData shape _ slots => set_data (MeshData shape true slots) o
  | _, _ => o
  end.

Fixpoint set_levels (name : string) (levels : Z) (ms : list modifier)
  : option (list modifier) :=
  match ms with
  | [] => None
  | m :: ms' =>
      if String.eqb (mod_name m) name
      then Some (Modifier (mod_name m) (mod_type m) (Some levels) :: ms')
      else cons m <$> set_levels name levels ms'
  end.

Definition apply_attr (a : obj_attr) (o : object matref)
  : pyexn + object matref :=
  match a with
  | Name n =>
      inr (Object n (obj_data_of o) (obj_location o) (obj_rotation_euler o)
             (obj_scale o) (obj_select o) (obj_modifiers o))
  | Location v =>
      inr (Object (obj_name o) (obj_data_of o) v (obj_rotation_euler o)
             (obj_scale o) (obj_select o) (obj_modifiers o))
  | Scale v =>
      inr (Object (obj_name o) (obj_data_of o) (obj_location o)
             (obj_rotation_euler o) v (obj_select o) (obj_modifiers o))
  | RotationEuler v =>
      inr (Object (obj_name o) (obj_data_of o) (obj_location o) v
             (obj_scale o) (obj_select o) (obj_modifiers o))
  | RotationEulerItem i x =>
      let '(rx, ry, rz) := obj_rotation_euler o in
      let put v :=
        inr (Object (obj_name o) (obj_data_of o) (obj_location o) v
               (obj_scale o) (obj_select o) (obj_modifiers o)) in
      match i with
      | 0 => put (x, ry, rz)
      | 1 => put (rx, x, rz)
      | 2 => put (rx, ry, x)
      | _ => inl IndexError
      end
  | DataEnergy x =>
      match obj_data_of o with
      | LightData type _ color => inr (set_data (LightData type (Some x) color) o)
      | _ => inl (AttributeError "energy")
      end
  | DataColor c =>
      match obj_data_of o with
      | LightData type energy _ => inr (set_data (LightData type energy (Some c)) o)
      | _ => inl (AttributeError "color")
      end
  | DataMaterialsAppend m =>
      match obj_data_of o with
      | MeshData shape smooth slots =>
          inr (set_data (MeshData shape smooth (slots ++ [m])) o)
      | _ => inl (AttributeError "materials")
      end
  | ModifierLevels name levels =>
      match set_levels name levels (obj_modifiers o) with
      | Some ms => inr (set_modifiers ms o)
      | None => inl (KeyError name)
      end
  end.

Fixpoint find_by_name (name : string) (l : list (objref * object matref))
  : option objref :=
  match l with
  | [] => None
  | (i, o) :: l' =>
      if String.eqb (obj_name o) name then Some i else find_by_name name l'
  end.

(** *** Node trees *)

Definition default_tree (d : datablock) : node_tree :=
  match d with
  | Material _ =>
      NodeTree [Node "ShaderNodeBsdfPrincipled" ∅;
                Node "ShaderNodeOutputMaterial" ∅]
               [Link 0 "BSDF" 1 "Surface"]
  | World =>
      NodeTree [Node "ShaderNodeBackground" ∅;
                Node "ShaderNodeOutputWorld" ∅]
               [Link 0 "Background" 1 "Surface"]
  end.

Definition get_shader (d : datablock) (s : Host) : option shader :=
  match d with
  | Material m => mat_shader <$> find m (materials s)
  | World => world s
  end.

Definition put_shader (d : datablock) (sh : shader) (s : Host) : Host :=
  match d with
  | Material m =>
      match find m (materials s) with
      | Some mt => with_materials (update m (Mat (mat_name mt) sh) (materials s)) s
      | None => s
      end
  | World => with_world (Some sh) s
  end.

Definition raise {X : Type} (e : pyexn) (s : Host) : Host * (pyexn + X) :=
  (s, inl e).

(** An access through [d.node_tree]: [d] may be [None], its datablock may
    be gone, and its node tree is [None] until nodes are enabled. *)
Definition on_tree {X : Type} (d : option datablock) (s : Host)
    (f : datablock -> node_tree -> pyexn + node_tree * X)
  : Host * (pyexn + X) :=
  match d with
  | None => raise (AttributeError "NoneType") s
  | Some d =>
      match get_shader d s with
      | None => raise ReferenceError s
      | Some sh =>
          match tree sh with
          | None => raise (AttributeError "node_tree") s
          | Some t =>
              match f d t with
              | inl e => raise e s
              | inr (t', x) =>
                  (put_shader d (Shader (use_nodes sh) (Some t')) s, inr x)
              end
          end
      end
  end.

Definition set_input (i : nat) (input : string) (v : socket_value)
    (t : node_tree) : pyexn + node_tree * unit :=
  match nodes t !! i with
  | None => inl ReferenceError
  | Some n =>
      inr (NodeTree
             (<[i := Node (node_type n) (<[input := v]> (node_inputs n))]> (nodes t))
             (links t), tt)
  end.

Definition datablock_eqb (a b : datablock) : bool :=
  match a, b with
  | Material m, Material m' => same_handle m m'
  | World, World => true
  | _, _ => false
  end.

(** *** Rendering *)

Definition render_image (s : Host) : image :=
  Image (resolution_x (render s)) (resolution_y (render s))
    (film_transparent (render s)) (scene_objects s).

Definition poll_failed : pyexn := RuntimeError "poll() failed, context is incorrect".

(** Object operators only run in Object mode, mesh operators only in
    Edit mode. *)
Definition in_mode {X : Type} (m : interaction_mode) (s : Host)
    (r : Host * (pyexn + X)) : Host * (pyexn + X) :=
  match mode s, m with
  | ObjectMode, ObjectMode | EditMode, EditMode => r
  | _, _ => raise poll_failed s
  end.

Definition select_all (action : string) (s : Host) : Host * (pyexn + unit) :=
  let all f := (with_objects (map_objects f (objects s)) s, inr tt) in
  if String.eqb action "SELECT" then all (set_select true)
  else if String.eqb action "DESELECT" then all (set_select false)
  else if String.eqb action "INVERT"
       then all (fun o => set_select (negb (obj_select o)) o)
  else if String.eqb action "TOGGLE"
       then all (set_select
                   (negb (existsb (fun e => obj_select (snd e)) (objects s))))
  else raise (TypeError "enum not found") s.

Definition set_render_attr (a : render_attr) (r : render_settings)
  : render_settings :=
  match a with
  | ResolutionX n =>
      RenderSettings n (resolution_y r) (film_transparent r) (filepath r)
  | ResolutionY n =>
      RenderSettings (resolution_x r) n (film_transparent r) (filepath r)
  | FilmTransparent b =>
      RenderSettings (resolution_x r) (resolution_y r) b (filepath r)
  | Filepath p =>
      RenderSettings (resolution_x r) (resolution_y r) (film_transparent r) p
  end.

Definition blender (X : Type) (c : call X) (s : Host) : Host * (pyexn + X) :=
  match c in call X return Host * (pyexn + X) with
  | ops_object_select_all action =>
      in_mode ObjectMode s (select_all action s)
  | ops_object_delete _ =>
      in_mode ObjectMode s
        (set_objects
           (List.filter (fun e => negb (obj_select (snd e))) (objects s)) s,
         inr tt)
  | ops_object_light_add type location =>
      in_mode ObjectMode s
        match light_name type with
        | Some n =>
            (add_object (new_object n (LightData type None None) location) s,
             inr tt)
        | None => raise (TypeError "enum not found") s
        end
  | ops_object_camera_add location =>
      in_mode ObjectMode s
        (add_object (new_object "Camera" CameraData location) s, inr tt)
  | ops_object_shade_smooth =>
      in_mode ObjectMode s
        (with_objects (map_objects shade_smooth (objects s)) s, inr tt)
  | ops_object_modifier_add type =>
      match active_object s with
      | None => raise poll_failed s
      | Some id =>
          match find id (objects s) with
          | None => raise poll_failed s
          | Some o =>
              let ms := obj_modifiers o ++ [Modifier (modifier_name type) type None] in
              (with_objects (update id (set_modifiers ms o) (objects s)) s,
               inr tt)
          end
      end
  | ops_object_mode_set m =>
      match active_object s with
      | None => raise poll_failed s
      | Some _ =>
          if String.eqb m "OBJECT" then (with_mode ObjectMode s, inr tt)
          else if String.eqb m "EDIT" then (with_mode EditMode s, inr tt)
          else raise (TypeError "enum not found") s
      end
  | ops_mesh_primitive_add shape location =>
      in_mode ObjectMode s
        (add_object
           (new_object (primitive_name shape) (MeshData shape false []) location)
           s,
         inr tt)
  | ops_mesh_select_all _ =>
      in_mode EditMode s (s, inr tt)
  | ops_mesh_select_mode type =>
      in_mode EditMode s (with_mesh_select_mode type s, inr tt)
  | ops_render_render write_still =>
      match scene_camera s with
      | None => raise (RuntimeError "Cannot render, no camera") s
      | Some _ =>
          (if write_still
           then with_files (files s ++ [(filepath (render s), render_image s)]) s
           else s,
           inr tt)
      end
  | context_active_object => (s, inr (active_object s))
  | context_scene_world =>
      (s, inr match world s with Some _ => Some World | None => None end)
  | set_view_layer_active o =>
      match o with
      | None => (with_active_object None s, inr tt)
      | Some id =>
          match find id (objects s) with
          | Some _ => (with_active_object (Some id) s, inr tt)
          | None => raise ReferenceError s
          end
      end
  | set_scene_camera o =>
      match o with
      | None => (with_scene_camera None s, inr tt)
      | Some id =>
          match find id (objects s) with
          | Some _ => (with_scene_camera (Some id) s, inr tt)
          | None => raise ReferenceError s
          end
      end
  | set_render a => (with_render (set_render_attr a (render s)) s, inr tt)
  | set_object o a =>
      match o with
      | None => raise (AttributeError "NoneType") s
      | Some id =>
          match find id (objects s) with
          | None => raise ReferenceError s
          | Some ob =>
              match apply_attr a ob with
              | inl e => raise e s
              | inr ob' => (with_objects (update id ob' (objects s)) s, inr tt)
              end
          end
      end
  | data_materials_new name =>
      let id := next_material s in
      (with_next_material (S id)
         (with_materials ((id, Mat name (Shader false None)) :: materials s) s),
       inr id)
  | data_objects_contains name =>
      (s, inr match find_by_name name (objects s) with
              | Some _ => true
              | None => false
              end)
  | data_objects_getitem name =>
      match find_by_name name (objects s) with
      | Some id => (s, inr id)
      | None => raise (KeyError name) s
      end
  | data_objects_remove id =>
      match find id (objects s) with
      | Some _ => (set_objects (remove id (objects s)) s, inr tt)
      | None => raise ReferenceError s
      end
  | set_use_nodes d b =>
      match d with
      | None => raise (AttributeError "NoneType") s
      | Some d =>
          match get_shader d s with
          | None => raise ReferenceError s
          | Some sh =>
              let t := match tree sh with
                       | Some t => Some t
                       | None => if b then Some (default_tree d) else None
                       end in
              (put_shader d (Shader b t) s, inr tt)
          end
      end
  | nodes_clear d =>
      on_tree d s (fun _ _ => inr (NodeTree [] [], tt))
  | nodes_new d type =>
      on_tree d s (fun d' t =>
        inr (NodeTree (nodes t ++ [Node type ∅]) (links t),
             NodeRef d' (length (nodes t))))
  | set_input_default n input v =>
      on_tree (Some (node_owner n)) s (fun _ t =>
        set_input (node_index n) input v t)
  | links_new d from_node output to_node input =>
      on_tree d s (fun d' t =>
        if datablock_eqb (node_owner from_node) d'
           && datablock_eqb (node_owner to_node) d'
        then inr (NodeTree (nodes t)
                    (links t ++ [Link (node_index from_node) output
                                   (node_index to_node) input]),
                  tt)
        else inl (RuntimeError "node of another tree"))
  | print line => (with_stdout (stdout s ++ [line]) s, inr tt)
  end.

(** The host as a new file opens it: a cube, a light and a camera named
    "Camera", in Object mode, with a world. *)
Definition startup : Host :=
  MkHost
    [ (2, Object "Camera" CameraData (7.36%Q, (-6.93)%Q, 4.96%Q)
            (1.11%Q, 0%Q, 0.81%Q) (1%Q, 1%Q, 1%Q) false []);
      (1, Object "Light" (LightData "POINT" None None)
            (4.08%Q, 1.0%Q, 5.9%Q) (0%Q, 0%Q, 0%Q) (1%Q, 1%Q, 1%Q) false []);
      (0, Object "Cube" (MeshData (Cube 2%Q) false [])
            (0%Q, 0%Q, 0%Q) (0%Q, 0%Q, 0%Q) (1%Q, 1%Q, 1%Q) true []) ]
    3 (Some 0) ObjectMode (Some 2)
    [] 0
    (Some (Shader true (Some (default_tree World))))
    (RenderSettings 1920 1080 false "/tmp/")
    "VERT" [] [].

(** States are kept in constructor form when simplified. *)
Arguments with_objects v s /.
Arguments with_next_object v s /.
Arguments with_active_object v s /.
Arguments with_mode v s /.
Arguments with_scene_camera v s /.
Arguments with_materials v s /.
Arguments with_next_material v s /.
Arguments with_world v s /.
Arguments with_render v s /.
Arguments with_mesh_select_mode v s /.
Arguments with_files v s /.
Arguments with_stdout v s /.
Arguments add_object o s /.
Arguments set_objects l s /.
Arguments put_shader d sh s /.
Arguments new_object name d loc /.
Arguments set_select b o /.
Arguments set_data d o /.
Arguments set_modifiers ms o /.

(** The state after the host has served the calls of a trace. *)
Definition after {St : Type}
    (h : forall X : Type, call X -> St -> St * (pyexn + X))
    (evs : list event) (s : St) : St :=
  fold_left (fun s ev => match ev with Event c _ => fst (h _ c s) end) evs s.

Arguments after : simpl never.


(** The functions the script defines. *)
Inductive script_function : forall A : Type, Prog A -> Prop :=
| sf_clear_scene : script_function unit clear_scene
| sf_create_material name color metallic roughness emission :
    script_function matref
      (create_material name color metallic roughness emission)
| sf_setup_lighting : script_function unit setup_lighting
| sf_create_microphone_icon : script_function unit create_microphone_icon
| sf_create_conversation_bubble :
    script_function unit create_conversation_bubble
| sf_create_book_icon : script_function unit create_book_icon
| sf_create_shield_icon : script_function unit create_shield_icon
| sf_setup_icon_camera : script_function unit setup_icon_camera
| sf_render_icon name size : script_function unit (render_icon name size)
| sf_create_all_storyline_icons :
    script_function unit create_all_storyline_icons.

Arguments script_function {A} p.

(** ** What the script is meant to build *)

(** The shader [create_material] sets up: a Principled BSDF with four of
    its inputs assigned, wired to the material output. *)
Definition principled (color : rgba) (metallic roughness emission : Q)
  : shader :=
  Shader true
    (Some (NodeTree
       [ Node "ShaderNodeBsdfPrincipled"
           (<["Emission Strength" := VFloat emission]>
              (<["Roughness" := VFloat roughness]>
                 (<["Metallic" := VFloat metallic]>
                    (<["Base Color" := VColor color]> ∅))));
         Node "ShaderNodeOutputMaterial" ∅ ]
       [ Link 0 "BSDF" 1 "Surface" ])).

(** The world [setup_lighting] sets up. *)
Definition lighting_world : shader :=
  Shader true
    (Some (NodeTree
       [ Node "ShaderNodeTexEnvironment" ∅;
         Node "ShaderNodeBackground"
           (<["Strength" := VFloat 0.3%Q]>
              (<["Color" := VColor (0.1%Q, 0.08%Q, 0.12%Q, 1.0%Q)]> ∅));
         Node "ShaderNodeOutputWorld" ∅ ]
       [ Link 1 "Background" 2 "Surface" ])).

Definition key_light {M : Type} : object M :=
  Object "Sun"
    (LightData "SUN" (Some 3%Q) (Some (1.0%Q, 0.95%Q, 0.9%Q)))
    (5%Q, 5%Q, 10%Q) (0%Q, 0%Q, 0%Q) (1%Q, 1%Q, 1%Q) false [].

Definition fill_light {M : Type} : object M :=
  Object "Area"
    (LightData "AREA" (Some 1%Q) (Some (0.894%Q, 0.702%Q, 0.388%Q)))
    ((-3)%Q, 2%Q, 5%Q) (0%Q, 0%Q, 0%Q) (1%Q, 1%Q, 1%Q) true [].

Definition icon_camera {M : Type} (selected : bool) : object M :=
  Object "Icon_Camera" CameraData
    (4%Q, (-4)%Q, 3%Q) (1.1%Q, 0%Q, 0.785%Q) (1%Q, 1%Q, 1%Q) selected [].

(** A mesh object as the microphone builder leaves it. *)
Definition part (name : string) (shape : primitive) (smooth : bool)
    (mat : material) (location : vec3) : object (option material) :=
  Object name (MeshData shape smooth [Some mat]) location
    (0%Q, 0%Q, 0%Q) (1%Q, 1%Q, 1%Q) false [].

Definition ink_black : rgba := (0.106%Q, 0.110%Q, 0.118%Q, 1.0%Q).
Definition soft_plum : rgba := (0.533%Q, 0.329%Q, 0.816%Q, 1.0%Q).

Definition microphone_scene : list (object (option material)) :=
  [ part "Microphone_Capsule" (Cylinder 0.4%Q 1.2%Q) true
      (Mat "Microphone_Body" (principled soft_plum 0.3%Q 0.2%Q 0.0%Q))
      (0%Q, 0%Q, 1%Q);
    part "Microphone_Grille" (Cylinder 0.41%Q 0.8%Q) false
      (Mat "Microphone_Grille" (principled ink_black 0.8%Q 0.1%Q 0.0%Q))
      (0%Q, 0%Q, 1.2%Q);
    part "Microphone_Base" (Cylinder 0.6%Q 0.1%Q) false
      (Mat "Microphone_Stand" (principled ink_black 0.5%Q 0.3%Q 0.0%Q))
      (0%Q, 0%Q, 0%Q);
    part "Microphone_Arm" (Cylinder 0.05%Q 1%Q) false
      (Mat "Microphone_Stand" (principled ink_black 0.5%Q 0.3%Q 0.0%Q))
      (0%Q, 0%Q, 0.5%Q);
    icon_camera false;
    key_light;
    fill_light ].

(** The objects [setup_icon_camera] starts from once the default camera,
    if there is one, is out of the way. *)
Definition without_default_camera (l : list (objref * object matref))
  : list (objref * object matref) :=
  match find_by_name "Camera" l with
  | Some old => remove old l
  | None => l
  end.

(** The scene with nothing in it. *)
Definition cleared (s : Host) : Host :=
  with_scene_camera None (with_active_object None (with_objects [] s)).

(** The state [render_icon] leaves when the render goes through. *)
Definition rendered (name : string) (size : Z) (s : Host) : Host :=
  let path := icons_dir +:+ name +:+ "_" +:+ str size +:+ ".png" in
  with_stdout
    (stdout s ++ ["✅ Rendered " +:+ name +:+ " icon at " +:+ str size +:+ "px"])
    (with_files (files s ++ [(path, Image size size true (scene_objects s))])
       (with_render (RenderSettings size size true path) s)).

(** The four per-icon builders. *)
Inductive icon_builder : Prog unit -> Prop :=
| ib_microphone : icon_builder create_microphone_icon
| ib_conversation_bubble : icon_builder create_conversation_bubble
| ib_book : icon_builder create_book_icon
| ib_shield : icon_builder create_shield_icon.

(** The scene a builder leaves when run in a new file. *)
Definition built_scene (b : Prog unit) : list (object (option material)) :=
  scene_objects (fst (run blender b startup)).

(** Host calls that add an object to the scene. *)
Definition creates_object (ev : event) : bool :=
  match ev with
  | Event (ops_mesh_primitive_add _ _) _
  | Event (ops_object_light_add _ _) _
  | Event (ops_object_camera_add _) _ => true
  | _ => false
  end.

(** Host calls that take an object out of the scene. *)
Definition removes_object {X : Type} (c : call X) : bool :=
  match c with
  | ops_object_delete _ | data_objects_remove _ => true
  | _ => false
  end.

(** Host calls that only concern rendering and the console. *)
Definition render_call (ev : event) : bool :=
  match ev with
  | Event (set_render _) _ | Event (ops_render_render _) _
  | Event (print _) _ => true
  | _ => false
  end.

Arguments built_scene : simpl never.
Arguments cleared s /.

(** What holds of the state [s'] a builder leaves when started in [s]. *)
Definition built (b : Prog unit) (s s' : Host) : Prop :=
  scene_objects s' = built_scene b /\
  scene_camera_object s' = Some (icon_camera false) /\
  world s' = Some lighting_world /\
  mode s' = ObjectMode /\
  (exists cam, scene_camera s' = Some cam) /\
  files s' = files s /\
  render s' = render s.

(** The state a new file is in once the microphone has been built. *)
Definition after_microphone : Host :=
  fst (run blender create_microphone_icon startup).


(** A new file without a world. *)
Definition no_world : Host := with_world None startup.

(** A program of which no host call takes an object out of the scene. *)
Inductive no_removal : forall A : Type, Prog A -> Prop :=
| nr_Ret (A : Type) (a : A) : no_removal A (Ret a)
| nr_Do (A X : Type) (c : call X) (k : X -> Prog A) :
    removes_object c = false ->
    (forall x, no_removal A (k x)) ->
    no_removal A (Do c k).

Arguments no_removal {A} p.

(** A program whose only calls that take an object out of the scene are
    the delete of [clear_scene], right after its select-all, and the
    removal of the object just looked up as ["Camera"]. *)
Inductive removals_accounted : forall A : Type, Prog A -> Prop :=
| ra_Ret (A : Type) (a : A) : removals_accounted A (Ret a)
| ra_Do (A X : Type) (c : call X) (k : X -> Prog A) :
    removes_object c = false ->
    (forall x, removals_accounted A (k x)) ->
    removals_accounted A (Do c k)
| ra_clear (A : Type) (k : unit -> Prog A) :
    (forall x, removals_accounted A (k x)) ->
    removals_accounted A
      (Do (ops_object_select_all "SELECT")
          (fun _ => Do (ops_object_delete false) k))
| ra_camera (A : Type) (k : unit -> Prog A) :
    (forall x, removals_accounted A (k x)) ->
    removals_accounted A
      (Do (data_objects_getitem "Camera")
          (fun old => Do (data_objects_remove old) k)).

Arguments removals_accounted {A} p.

(** Every object of the scene is still there after the program ran. *)
Definition destroys_nothing {A : Type} (p : Prog A) : Prop :=
  forall (s : Host) (id : objref),
    is_Some (find id (objects s)) ->
    is_Some (find id (objects (fst (run blender p s)))).

(** ** The icons, one by one *)

Inductive icon : Type := Microphone | ConversationBubble | Book | Shield.

Definition builder_of (i : icon) : Prog unit :=
  match i with
  | Microphone => create_microphone_icon
  | ConversationBubble => create_conversation_bubble
  | Book => create_book_icon
  | Shield => create_shield_icon
  end.


(** The line a builder prints when it is done. *)
Definition created_line (i : icon) : string :=
  match i with
  | Microphone => "✅ Microphone icon created!"
  | ConversationBubble => "✅ Conversation bubble icon created!"
  | Book => "✅ Book icon created!"
  | Shield => "✅ Shield icon created!"
  end.

Definition soft_white : rgba := (0.98%Q, 0.98%Q, 0.98%Q, 1.0%Q).
Definition warm_ochre : rgba := (0.894%Q, 0.702%Q, 0.388%Q, 1.0%Q).

(** The materials a builder creates, in the order it creates them. *)
Definition made (i : icon) : list material :=
  match i with
  | Microphone =>
      [ Mat "Microphone_Body" (principled soft_plum 0.3%Q 0.2%Q 0.0%Q);
        Mat "Microphone_Grille" (principled ink_black 0.8%Q 0.1%Q 0.0%Q);
        Mat "Microphone_Stand" (principled ink_black 0.5%Q 0.3%Q 0.0%Q) ]
  | ConversationBubble =>
      [ Mat "Bubble" (principled soft_plum 0.1%Q 0.1%Q 0.1%Q);
        Mat "Dots" (principled soft_white 0.1%Q 0.3%Q 0.3%Q) ]
  | Book =>
      [ Mat "Book_Cover" (principled soft_plum 0.1%Q 0.4%Q 0.0%Q);
        Mat "Book_Pages" (principled soft_white 0.1%Q 0.8%Q 0.0%Q);
        Mat "Bookmark" (principled warm_ochre 0.1%Q 0.2%Q 0.0%Q) ]
  | Shield =>
      [ Mat "Shield" (principled warm_ochre 0.2%Q 0.3%Q 0.05%Q);
        Mat "Heart" (principled soft_plum 0.1%Q 0.3%Q 0.1%Q) ]
  end.

(** The material store entries of materials created one after the other
    from handle [k] on; the store lists the newest first. *)
Definition allocated (k : matref) (ms : list material)
  : list (matref * material) :=
  rev (imap (fun j m => (j + k, m)) ms).

(** A deselected mesh object with one material. *)
Definition mesh (name : string) (shape : primitive) (smooth : bool)
    (mat : material) (location rotation scale : vec3)
    (modifiers : list modifier) : object (option material) :=
  Object name (MeshData shape smooth [Some mat]) location rotation scale
    false modifiers.

Definition unrotated : vec3 := (0%Q, 0%Q, 0%Q).
Definition unscaled : vec3 := (1%Q, 1%Q, 1%Q).

(** The meshes a builder leaves when it gets to the end of its mesh
    code, oldest first.  [create_conversation_bubble] never does: it
    stops at its modifier lookup (see [stalled_bubble]). *)
Definition meshes (i : icon) : list (object (option material)) :=
  match i with
  | Microphone =>
      [ mesh "Microphone_Capsule" (Cylinder 0.4%Q 1.2%Q) true
          (Mat "Microphone_Body" (principled soft_plum 0.3%Q 0.2%Q 0.0%Q))
          (0%Q, 0%Q, 1%Q) unrotated unscaled [];
        mesh "Microphone_Grille" (Cylinder 0.41%Q 0.8%Q) false
          (Mat "Microphone_Grille" (principled ink_black 0.8%Q 0.1%Q 0.0%Q))
          (0%Q, 0%Q, 1.2%Q) unrotated unscaled [];
        mesh "Microphone_Base" (Cylinder 0.6%Q 0.1%Q) false
          (Mat "Microphone_Stand" (principled ink_black 0.5%Q 0.3%Q 0.0%Q))
          (0%Q, 0%Q, 0%Q) unrotated unscaled [];
        mesh "Microphone_Arm" (Cylinder 0.05%Q 1%Q) false
          (Mat "Microphone_Stand" (principled ink_black 0.5%Q 0.3%Q 0.0%Q))
          (0%Q, 0%Q, 0.5%Q) unrotated unscaled [] ]
  | ConversationBubble => []
  | Book =>
      [ mesh "Book_Cover" (Cube 2%Q) false
          (Mat "Book_Cover" (principled soft_plum 0.1%Q 0.4%Q 0.0%Q))
          (0%Q, 0%Q, 0%Q) unrotated (1.2%Q, 0.1%Q, 1.6%Q) [];
        mesh "Book_Pages" (Cube 2%Q) false
          (Mat "Book_Pages" (principled soft_white 0.1%Q 0.8%Q 0.0%Q))
          (0%Q, 0.05%Q, 0%Q) unrotated (1.1%Q, 0.08%Q, 1.5%Q) [];
        mesh "Bookmark" (Cube 2%Q) false
          (Mat "Bookmark" (principled warm_ochre 0.1%Q 0.2%Q 0.0%Q))
          (0.5%Q, 0%Q, 0.8%Q) unrotated (0.1%Q, 0.12%Q, 0.8%Q) [] ]
  | Shield =>
      [ mesh "Safety_Shield" (Cylinder 1%Q 0.2%Q) true
          (Mat "Shield" (principled warm_ochre 0.2%Q 0.3%Q 0.05%Q))
          (0%Q, 0%Q, 0%Q) unrotated unscaled [];
        mesh "Heart_Left" (IcoSphere 0.3%Q) false
          (Mat "Heart" (principled soft_plum 0.1%Q 0.3%Q 0.1%Q))
          ((-0.15)%Q, 0.15%Q, 0.2%Q) unrotated unscaled [];
        mesh "Heart_Right" (IcoSphere 0.3%Q) false
          (Mat "Heart" (principled soft_plum 0.1%Q 0.3%Q 0.1%Q))
          (0.15%Q, 0.15%Q, 0.2%Q) unrotated unscaled [];
        mesh "Heart_Point" (Cone 0.2%Q 0.4%Q) false
          (Mat "Heart" (principled soft_plum 0.1%Q 0.3%Q 0.1%Q))
          (0%Q, 0.1%Q, (-0.1)%Q) (radians_180, 0%Q, 0%Q) unscaled [] ]
  end.

(** The whole scene of an icon: its meshes, the camera and the lights. *)
Definition icon_scene (i : icon) : list (object (option material)) :=
  meshes i ++ [icon_camera false; key_light; fill_light].

(** The scene a builder leaves when it stops at [setup_lighting]: the
    meshes and the camera, which was added last and is still selected. *)
Definition unlit_scene (i : icon) : list (object (option material)) :=
  meshes i ++ [icon_camera true].

(** The vertex select mode a builder leaves: only the shield builder
    touches it. *)
Definition select_mode_after (i : icon) (before : string) : string :=
  match i with
  | Shield => "VERT"
  | _ => before
  end.

(** What the microphone, book and shield builders do, by the mode and
    the world they are started in. *)
Definition builder_outcome (i : icon) (s : Host) : Prop :=
  match mode s, world s with
  | EditMode, _ => run blender (builder_of i) s = (s, inl poll_failed)
  | ObjectMode, None =>
      exists s',
        run blender (builder_of i) s = (s', inl (AttributeError "NoneType")) /\
        scene_objects s' = unlit_scene i /\
        materials s' = allocated (next_material s) (made i) ++ materials s /\
        world s' = None /\
        stdout s' = stdout s /\
        files s' = files s
  | ObjectMode, Some _ =>
      exists s',
        run blender (builder_of i) s = (s', inr tt) /\
        scene_objects s' = icon_scene i /\
        materials s' = allocated (next_material s) (made i) ++ materials s /\
        next_material s' = length (made i) + next_material s /\
        next_object s' = length (icon_scene i) + next_object s /\
        active_object s' = Some (length (meshes i) + 2 + next_object s) /\
        scene_camera s' = Some (length (meshes i) + next_object s) /\
        mesh_select_mode s' = select_mode_after i (mesh_select_mode s) /\
        stdout s' = stdout s ++ [created_line i]
  end.

(** A new file left in Edit mode. *)
Definition editing : Host := with_mode EditMode startup.

(** A new file without a scene camera. *)
Definition no_camera : Host := with_scene_camera None startup.

(** A host call without its outcome. *)
Inductive any_call : Type :=
| AnyCall (X : Type) (c : call X).

Arguments AnyCall {X} c.

Definition call_of (ev : event) : any_call :=
  match ev with
  | Event c _ => AnyCall c
  end.

(** The calls of [render_icon], in the order of its statements. *)
Definition render_icon_calls_in_order (name : string) (size : Z)
  : list any_call :=
  [ AnyCall (set_render (ResolutionX size));
    AnyCall (set_render (ResolutionY size));
    AnyCall (set_render (FilmTransparent true));
    AnyCall (set_render
               (Filepath (icons_dir +:+ name +:+ "_" +:+ str size +:+ ".png")));
    AnyCall (ops_render_render true);
    AnyCall (print ("✅ Rendered " +:+ name +:+ " icon at " +:+ str size +:+ "px")) ].

(** The trace of a [create_material] that runs through: each call with
    what the host answered, where [mat], [bsdf] and [output] are the
    answers to [materials.new] and to the two [nodes.new]. *)
Definition create_material_events (name : string) (color : rgba)
    (metallic roughness emission : Q) (mat : matref) (bsdf output : noderef)
  : list event :=
  [ Event (data_materials_new name) (inr mat);
    Event (set_use_nodes (Some (Material mat)) true) (inr tt);
    Event (nodes_clear (Some (Material mat))) (inr tt);
    Event (nodes_new (Some (Material mat)) "ShaderNodeBsdfPrincipled")
      (inr bsdf);
    Event (set_input_default bsdf "Base Color" (VColor color)) (inr tt);
    Event (set_input_default bsdf "Metallic" (VFloat metallic)) (inr tt);
    Event (set_input_default bsdf "Roughness" (VFloat roughness)) (inr tt);
    Event (set_input_default bsdf "Emission Strength" (VFloat emission))
      (inr tt);
    Event (nodes_new (Some (Material mat)) "ShaderNodeOutputMaterial")
      (inr output);
    Event (links_new (Some (Material mat)) bsdf "BSDF" output "Surface")
      (inr tt) ].

(** The one object [create_conversation_bubble] leaves in the scene: the
    cube, renamed, with the subdivision modifier the host added under its
    own name and no level set; it is still selected, flat shaded and
    without a material. *)
Definition stalled_bubble : object (option material) :=
  Object "Conversation_Bubble" (MeshData (Cube 2%Q) false [])
    (0%Q, 0%Q, 0.5%Q) unrotated unscaled true
    [Modifier "Subdivision" "SUBSURF" None].

(** What [create_conversation_bubble] does, by the mode it is started
    in. *)
Definition bubble_outcome (s : Host) : Prop :=
  match mode s with
  | EditMode =>
      run blender create_conversation_bubble s = (s, inl poll_failed)
  | ObjectMode =>
      exists s',
        run blender create_conversation_bubble s
          = (s', inl (KeyError "Subdivision Surface")) /\
        scene_objects s' = [stalled_bubble] /\
        materials s' =
          allocated (next_material s) (made ConversationBubble)
          ++ materials s /\
        world s' = world s /\
        stdout s' = stdout s /\
        files s' = files s
  end.

(** * Properties *)

(** ** Sequencing, for any host *)

Section RunFacts.
Context {St : Type}.
Variable h : forall X : Type, call X -> St -> St * (pyexn + X).


Lemma after_app evs evs' s : after h (evs ++ evs') s = after h evs' (after h evs s).
Proof. unfold after. apply fold_left_app. Qed.

Lemma run_bind {A B : Type} (p : Prog A) (f : A -> Prog B) s :
  run h (bind p f) s =
  match run h p s with
  | (s', inl e) => (s', inl e)
  | (s', inr a) => run h (f a) s'
  end.
Proof.
  revert B f s.
  induction p as [A a | A X c k IH | A C body IHb handler IHh k IHk];
    intros B f s; cbn.
  - reflexivity.
  - destruct (h X c s) as [s' [e | x]]; [reflexivity | apply IH].
  - destruct (run h body s) as [s' [e | b]].
    + destruct (run h (handler e) s') as [s'' [e' | b]];
        [reflexivity | apply IHk].
    + apply IHk.
Qed.

Lemma trace_bind {A B : Type} (p : Prog A) (f : A -> Prog B) s :
  trace h (bind p f) s =
  trace h p s ++
  match run h p s with
  | (_, inl _) => []
  | (s', inr a) => trace h (f a) s'
  end.
Proof.
  revert B f s.
  induction p as [A a | A X c k IH | A C body IHb handler IHh k IHk];
    intros B f s; cbn.
  - reflexivity.
  - destruct (h X c s) as [s' [e | x]]; [reflexivity |].
    cbn. f_equal. apply IH.
  - rewrite <- app_assoc. f_equal.
    destruct (run h body s) as [s' [e | b]].
    + rewrite <- app_assoc. f_equal.
      destruct (run h (handler e) s') as [s'' [e' | b]];
        [reflexivity | apply IHk].
    + apply IHk.
Qed.

Lemma run_mbind {A B : Type} (p : Prog A) (f : A -> Prog B) s :
  run h (p ≫= f) s =
  match run h p s with
  | (s', inl e) => (s', inl e)
  | (s', inr a) => run h (f a) s'
  end.
Proof. apply run_bind. Qed.


(** The state a run ends in is the state the host left after the last
    call of the trace: the interpreter itself never touches it. *)
Lemma run_state_after {A : Type} (p : Prog A) s :
  fst (run h p s) = after h (trace h p s) s.
Proof.
  revert s.
  induction p as [A a | A X c k IH | A C body IHb handler IHh k IHk];
    intros s; cbn.
  - reflexivity.
  - destruct (h X c s) as [s' [e | x]] eqn:E; unfold after; cbn;
      rewrite E; cbn; [reflexivity | apply IH].
  - rewrite after_app, <- IHb.
    destruct (run h body s) as [s' [e | b]]; cbn.
    + rewrite after_app, <- IHh.
      destruct (run h (handler e) s') as [s'' [e' | b]]; cbn;
        [reflexivity | apply IHk].
    + apply IHk.
Qed.

(** Without a handler, a run that raises made only successful calls
    before the one that raised, and made none after it. *)
Lemma raise_is_last_call {A : Type} (p : Prog A) :
  no_handler p ->
  forall s s' e, run h p s = (s', inl e) ->
  exists evs X (c : call X),
    trace h p s = evs ++ [Event c (inl e)] /\
    Forall (fun ev => raised ev = None) evs /\
    h X c (after h evs s) = (s', inl e).
Proof.
  induction 1 as [A a | A X c k Hk IH]; intros s s' e Hrun; cbn in *.
  - discriminate.
  - destruct (h X c s) as [s1 [e1 | x]] eqn:E.
    + inversion Hrun; subst. exists [], X, c. cbn. auto.
    + destruct (IH x s1 s' e Hrun) as (evs & Y & c' & Ht & Hok & Hc).
      exists (Event c (inr x) :: evs), Y, c'. unfold after in *. cbn.
      rewrite E. cbn.
      split; [by rewrite Ht | split; [constructor; auto | exact Hc]].
Qed.
End RunFacts.


Section SequenceFacts.
Context {St : Type}.
Variable h : forall X : Type, call X -> St -> St * (pyexn + X).


End SequenceFacts.


Lemma nh_host {X : Type} (c : call X) : no_handler (host c).
Proof. apply nh_Do. intros x. apply nh_Ret. Qed.

Lemma nh_bind {A B : Type} (p : Prog A) (f : A -> Prog B) :
  no_handler p -> (forall a, no_handler (f a)) -> no_handler (p ≫= f).
Proof.
  intros Hp Hf. unfold mbind, Prog_bind.
  induction Hp as [A a | A X c k Hk IH]; cbn.
  - apply Hf.
  - apply nh_Do. intros x. apply IH, Hf.
Qed.

Lemma nh_mret {A : Type} (a : A) : no_handler (mret a : Prog A).
Proof. apply nh_Ret. Qed.

Ltac no_handler_step :=
  first [ apply nh_host | apply nh_mret | apply nh_Ret
        | apply nh_bind; [| intros ?]
        | match goal with
          | |- no_handler (if ?b then _ else _) => destruct b
          end ].

Lemma nh_clear_scene : no_handler clear_scene.
Proof. unfold clear_scene. repeat no_handler_step. Qed.

Lemma nh_create_material name color m r e :
  no_handler (create_material name color m r e).
Proof. unfold create_material. repeat no_handler_step. Qed.

Lemma nh_setup_lighting : no_handler setup_lighting.
Proof. unfold setup_lighting. repeat no_handler_step. Qed.

Lemma nh_setup_icon_camera : no_handler setup_icon_camera.
Proof. unfold setup_icon_camera. repeat no_handler_step. Qed.

Lemma nh_render_icon name size : no_handler (render_icon name size).
Proof. unfold render_icon. repeat no_handler_step. Qed.

Lemma nh_for_enumerate {A : Type} start (l : list A) body :
  (forall i x, no_handler (body i x)) -> no_handler (for_enumerate start l body).
Proof.
  intros Hb. revert start.
  induction l as [| x l IH]; intros start; cbn.
  - apply nh_Ret.
  - apply nh_bind; [apply Hb | intros _; apply IH].
Qed.

Ltac no_handler_script :=
  repeat first
    [ apply nh_clear_scene | apply nh_create_material
    | apply nh_setup_lighting | apply nh_setup_icon_camera
    | apply nh_render_icon
    | apply nh_for_enumerate; intros ? ?
    | no_handler_step ].

Lemma nh_create_microphone_icon : no_handler create_microphone_icon.
Proof. unfold create_microphone_icon. no_handler_script. Qed.

Lemma nh_create_conversation_bubble : no_handler create_conversation_bubble.
Proof. unfold create_conversation_bubble. no_handler_script. Qed.

Lemma nh_create_book_icon : no_handler create_book_icon.
Proof. unfold create_book_icon. no_handler_script. Qed.

Lemma nh_create_shield_icon : no_handler create_shield_icon.
Proof. unfold create_shield_icon. no_handler_script. Qed.

Lemma script_function_no_handler {A : Type} (p : Prog A) :
  script_function p -> no_handler p.
Proof.
  destruct 1.
  - apply nh_clear_scene.
  - apply nh_create_material.
  - apply nh_setup_lighting.
  - apply nh_create_microphone_icon.
  - apply nh_create_conversation_bubble.
  - apply nh_create_book_icon.
  - apply nh_create_shield_icon.
  - apply nh_setup_icon_camera.
  - apply nh_render_icon.
  - unfold create_all_storyline_icons.
    repeat first
      [ apply nh_create_microphone_icon | apply nh_create_conversation_bubble
      | apply nh_create_book_icon | apply nh_create_shield_icon
      | apply nh_render_icon | no_handler_step ].
Qed.

(** ** Symbolic execution on the reference host *)

Lemma same_handle_refl a : same_handle a a = true.
Proof. apply Nat.eqb_refl. Qed.

Lemma same_handle_neq a b : a <> b -> same_handle a b = false.
Proof. apply Nat.eqb_neq. Qed.

Ltac handles :=
  repeat match goal with
  | |- context [same_handle ?a ?a] => rewrite (same_handle_refl a)
  | |- context [same_handle ?a ?b] => rewrite (same_handle_neq a b) by lia
  end.

Ltac sym_exec := repeat (progress (cbn; handles)).

Lemma run_host_bind {X A : Type} (c : call X) (f : X -> Prog A) s :
  run blender (host c ≫= f) s =
  match blender X c s with
  | (s', inl e) => (s', inl e)
  | (s', inr x) => run blender (f x) s'
  end.
Proof. reflexivity. Qed.

Lemma run_host {X : Type} (c : call X) s :
  run blender (host c) s = blender X c s.
Proof. cbn. by destruct (blender X c s) as [? [|]]. Qed.

Lemma run_mret {A : Type} (a : A) (s : Host) :
  run blender (mret a) s = (s, inr a).
Proof. reflexivity. Qed.

(** One host call at a time, with the state back in constructor form
    after each. *)
(** Decimal renderings of closed integers are computed outright. *)
Ltac strings :=
  repeat match goal with
  | |- context [str ?z] =>
      let v := eval vm_compute in (str z) in change (str z) with v
  | |- context [String.append ?a ?b] =>
      let v := eval vm_compute in (String.append a b) in
      progress change (String.append a b) with v
  end.

Ltac step :=
  first [ rewrite run_host_bind | rewrite run_host | rewrite run_mret
        | rewrite run_mbind ];
  cbn -[run mbind]; strings; handles; cbn -[run mbind].

Ltac steps := repeat step.

Lemma run_create_material name color m r e s :
  run blender (create_material name color m r e) s =
  (with_next_material (S (next_material s))
     (with_materials
        ((next_material s,
          Mat name (principled color (default 0.1%Q m) (default 0.3%Q r)
                      (default 0.0%Q e)))
         :: materials s) s),
   inr (next_material s)).
Proof.
  destruct s as [objs nxt act md cam mats k w rs msm fs out].
  unfold create_material. sym_exec. reflexivity.
Qed.

Lemma filter_selected (l : list (objref * object matref)) :
  List.filter (fun e => negb (obj_select (snd e)))
    (map (fun e => (fst e, set_select true (snd e))) l) = [].
Proof. induction l as [| [i o] l IH]; cbn; auto. Qed.

Lemma run_clear_scene s :
  mode s = ObjectMode -> run blender clear_scene s = (cleared s, inr tt).
Proof.
  destruct s as [objs nxt act md cam mats k w rs msm fs out]. cbn.
  intros ->. cbn. unfold set_objects, map_objects. cbn.
  rewrite filter_selected. by destruct cam, act.
Qed.

Lemma run_clear_scene_edit s :
  mode s = EditMode -> run blender clear_scene s = (s, inl poll_failed).
Proof.
  destruct s as [objs nxt act md cam mats k w rs msm fs out]. cbn.
  by intros ->.
Qed.

Lemma run_render_icon name size s :
  run blender (render_icon name size) s =
  let size := default 1024%Z size in
  match scene_camera s with
  | Some _ => (rendered name size s, inr tt)
  | None =>
      (with_render
         (RenderSettings size size true
            (icons_dir +:+ name +:+ "_" +:+ str size +:+ ".png")) s,
       inl (RuntimeError "Cannot render, no camera"))
  end.
Proof.
  destruct s as [objs nxt act md cam mats k w rs msm fs out].
  destruct cam; reflexivity.
Qed.

(** ** The material factory *)

(** C4: for every name, colour, metallic, roughness and emission (each of
    the last three possibly left out), [create_material] returns a
    material that uses nodes and whose tree is a Principled BSDF with
    Base Color, Metallic, Roughness and Emission Strength set to the
    arguments, its BSDF output linked to the Surface input of a material
    output node; an argument left out counts as 0.1, 0.3 and 0.0. *)
Theorem create_material_builds_principled
    (name : string) (color : rgba) (metallic roughness emission : option Q)
    (s : Host) :
  exists (mat : matref) (s' : Host) (bsdf output : node),
    run blender (create_material name color metallic roughness emission) s
      = (s', inr mat) /\
    find mat (materials s')
      = Some (Mat name
                (Shader true
                   (Some (NodeTree [bsdf; output]
                            [Link 0 "BSDF" 1 "Surface"])))) /\
    node_type bsdf = "ShaderNodeBsdfPrincipled" /\
    node_type output = "ShaderNodeOutputMaterial" /\
    node_inputs bsdf !! "Base Color" = Some (VColor color) /\
    node_inputs bsdf !! "Metallic" = Some (VFloat (default 0.1%Q metallic)) /\
    node_inputs bsdf !! "Roughness" = Some (VFloat (default 0.3%Q roughness)) /\
    node_inputs bsdf !! "Emission Strength"
      = Some (VFloat (default 0.0%Q emission)).
Proof.
  rewrite run_create_material.
  eexists _, _, _, _. split; [reflexivity |].
  split; [cbn; rewrite same_handle_refl; reflexivity |].
  repeat split; reflexivity.
Qed.

(** ** The render trigger *)

Lemma render_icon_calls {St : Type}
    (h : forall X : Type, call X -> St -> St * (pyexn + X))
    name size (t : St) :
  Forall (fun ev => render_call ev = true) (trace h (render_icon name size) t).
Proof.
  unfold render_icon. cbn.
  repeat match goal with
         | |- context [h ?X ?c ?s] => destruct (h X c s) as [? [? | []]]
         | |- Forall _ (_ :: _) => constructor; [reflexivity |]
         | |- Forall _ [] => constructor
         end.
Qed.

Lemma str_parses (n : Z) :
  option_map Z.of_int (NilZero.int_of_string (str n)) = Some n.
Proof.
  unfold str. rewrite NilZero.isi.
  - cbn. f_equal. apply DecimalZ.of_to.
  - destruct n as [| q | q]; cbn; try discriminate.
    intros [= H]. by apply (DecimalPos.Unsigned.to_uint_nonnil q).
  - destruct n as [| q | q]; cbn; try discriminate.
    intros [= H]. by apply (DecimalPos.Unsigned.to_uint_nonnil q).
Qed.

(** C2: for every name and size, [render_icon] leaves the render settings
    at size by size pixels with a transparent film and the file path
    [icons_dir], the name, an underscore, the size in decimal and ".png",
    where the decimal text is one that reads back as the size; when the
    render goes through, the image written under that path is the
    current scene at that size; a size left out counts as 1024. *)
Theorem render_icon_writes_png (name : string) (size : option Z) (s : Host) :
  let n := default 1024%Z size in
  let path := icons_dir +:+ name +:+ "_" +:+ str n +:+ ".png" in
  icons_dir = "/Users/jamesfarmer/Application Prototype/Storyline/assets/icons/" /\
  render (fst (run blender (render_icon name size) s))
    = RenderSettings n n true path /\
  option_map Z.of_int (NilZero.int_of_string (str n)) = Some n /\
  (forall s' : Host,
      run blender (render_icon name size) s = (s', inr tt) ->
      files s' = files s ++ [(path, Image n n true (scene_objects s))]).
Proof.
  cbv zeta. rewrite run_render_icon. cbv zeta.
  split; [reflexivity |].
  destruct s as [objs nxt act md [cam |] mats k w rs msm fs out]; cbn.
  - split; [reflexivity |]. split; [apply str_parses |]. by intros s' [= <-].
  - split; [reflexivity |]. split; [apply str_parses |]. intros s' [=].
Qed.

Lemma render_icon_writes_png_witness :
  files (fst (run blender (render_icon "book" (Some 64%Z)) startup))
  = [ ("/Users/jamesfarmer/Application Prototype/Storyline/assets/icons/book_64.png",
       Image 64 64 true (scene_objects startup)) ].
Proof.
  apply (proj2 (proj2 (proj2
           (render_icon_writes_png "book" (Some 64%Z) startup)))).
  reflexivity.
Defined.

(** C10: for every name and size, [render_icon] changes nothing of the
    host but the render settings, the files written and the console
    output: the objects with their names, transforms, modifiers and
    material slots, the materials, the world, the active object and the
    scene camera are what they were; and on any host the only calls it
    makes are assignments to render settings, the render operator and
    [print]. *)
Theorem render_icon_leaves_scene (name : string) (size : option Z) (s : Host) :
  let s' := fst (run blender (render_icon name size) s) in
  s' = with_stdout (stdout s') (with_files (files s') (with_render (render s') s)) /\
  objects s' = objects s /\
  materials s' = materials s /\
  scene_objects s' = scene_objects s /\
  scene_camera s' = scene_camera s /\
  active_object s' = active_object s /\
  world s' = world s /\
  (forall (St : Type) (h : forall X : Type, call X -> St -> St * (pyexn + X))
          (t : St),
      Forall (fun ev => render_call ev = true)
        (trace h (render_icon name size) t)).
Proof.
  cbv zeta. rewrite run_render_icon. cbv zeta.
  destruct s as [objs nxt act md [cam |] mats k w rs msm fs out]; cbn;
    repeat split; auto; intros; apply render_icon_calls.
Qed.

(** ** Lighting and camera *)

Lemma setup_lighting_cases s :
  match run blender setup_lighting s with
  | (s', inr _) =>
      world s' = Some lighting_world /\
      objects s' =
        (S (next_object s), fill_light) :: (next_object s, key_light)
        :: map_objects (set_select false) (objects s)
  | (_, inl _) => True
  end.
Proof.
  destruct s as [objs nxt act md cam mats k w rs msm fs out].
  unfold setup_lighting.
  destruct md, w as [[u [t |]] |]; steps; try exact I;
    (split; [reflexivity |]); rewrite map_map; reflexivity.
Qed.

(** C5: when [setup_lighting] runs through, the world uses nodes with a
    background node of colour (0.1, 0.08, 0.12, 1.0) and strength 0.3
    linked to the world output, and the scene has exactly two more
    objects than before: a SUN light at (5, 5, 10) with energy 3 and an
    AREA light at (-3, 2, 5) with energy 1 and the first three components
    of the warm-ochre brand colour. *)
Theorem setup_lighting_adds_two_lights (s s' : Host) :
  run blender setup_lighting s = (s', inr tt) ->
  world s' = Some lighting_world /\
  objects s' =
    (S (next_object s), fill_light) :: (next_object s, key_light)
    :: map_objects (set_select false) (objects s) /\
  obj_data_of (@fill_light matref)
    = LightData "AREA" (Some 1%Q) (Some (slice3 (COLORS !!! "warm_ochre"))).
Proof.
  intros Hrun. pose proof (setup_lighting_cases s) as C.
  rewrite Hrun in C. destruct C as [Hw Ho]. by repeat split.
Qed.

Lemma setup_lighting_adds_two_lights_witness :
  let s' := fst (run blender setup_lighting startup) in
  world s' = Some lighting_world /\
  objects s' =
    (4, fill_light) :: (3, key_light)
    :: map_objects (set_select false) (objects startup) /\
  obj_data_of (@fill_light matref)
    = LightData "AREA" (Some 1%Q) (Some (slice3 (COLORS !!! "warm_ochre"))).
Proof.
  apply (setup_lighting_adds_two_lights startup). vm_compute. reflexivity.
Defined.

Lemma find_by_name_find name (l : list (objref * object matref)) id :
  find_by_name name l = Some id -> exists o, find id l = Some o.
Proof.
  induction l as [| [i o] l IH]; cbn; [discriminate |].
  destruct (String.eqb (obj_name o) name).
  - intros [= <-]. rewrite same_handle_refl. eauto.
  - intros H. destruct (same_handle i id); eauto.
Qed.

Lemma setup_icon_camera_cases s :
  match run blender setup_icon_camera s with
  | (s', inr _) =>
      objects s' =
        (next_object s, icon_camera true)
        :: map_objects (set_select false) (without_default_camera (objects s)) /\
      scene_camera s' = Some (next_object s)
  | (_, inl _) => True
  end.
Proof.
  destruct s as [objs nxt act md cam mats k w rs msm fs out].
  unfold setup_icon_camera, without_default_camera.
  rewrite run_host_bind. cbn -[run mbind].
  destruct (find_by_name "Camera" objs) as [old |] eqn:E.
  - destruct (find_by_name_find _ _ _ E) as [o Ho].
    rewrite run_mbind, run_host_bind. cbn -[run mbind]. rewrite E.
    rewrite run_host. cbn -[run mbind]. rewrite Ho. cbn -[run mbind].
    destruct md; steps; auto.
  - destruct md; steps; auto.
Qed.

(** C6: when [setup_icon_camera] runs through, the scene has a new
    camera object at location (4, -4, 3) with rotation (1.1, 0, 0.785),
    named "Icon_Camera", and that object is the scene's active camera. *)
Theorem setup_icon_camera_places_camera (s s' : Host) :
  run blender setup_icon_camera s = (s', inr tt) ->
  objects s' =
    (next_object s,
     Object "Icon_Camera" CameraData (4%Q, (-4)%Q, 3%Q)
       (1.1%Q, 0%Q, 0.785%Q) (1%Q, 1%Q, 1%Q) true [])
    :: map_objects (set_select false) (without_default_camera (objects s)) /\
  scene_camera s' = Some (next_object s) /\
  scene_camera_object s' = Some (icon_camera true).
Proof.
  intros Hrun. pose proof (setup_icon_camera_cases s) as C.
  rewrite Hrun in C. destruct C as [Ho Hc].
  repeat split; [exact Ho | exact Hc |].
  unfold scene_camera_object. rewrite Hc, Ho. cbn.
  by rewrite same_handle_refl.
Qed.

Lemma setup_icon_camera_places_camera_witness :
  let s' := fst (run blender setup_icon_camera startup) in
  objects s' =
    (3, Object "Icon_Camera" CameraData (4%Q, (-4)%Q, 3%Q)
          (1.1%Q, 0%Q, 0.785%Q) (1%Q, 1%Q, 1%Q) true [])
    :: map_objects (set_select false) (without_default_camera (objects startup)) /\
  scene_camera s' = Some 3 /\
  scene_camera_object s' = Some (icon_camera true).
Proof.
  apply (setup_icon_camera_places_camera startup). vm_compute. reflexivity.
Defined.

(** ** The icon builders *)

Ltac run_builder :=
  rewrite run_mbind, run_clear_scene by reflexivity;
  cbn -[run mbind lookup_total];
  repeat (rewrite run_mbind, run_create_material;
          cbn -[run mbind lookup_total]);
  unfold setup_icon_camera, setup_lighting; steps.

Ltac check_built :=
  unfold built; cbn -[built_scene];
  repeat match goal with
         | |- _ /\ _ => split
         | |- exists _, _ => eexists
         end;
  try reflexivity;
  unfold scene_objects, scene_camera_object, resolve; cbn -[built_scene];
  handles; vm_compute; reflexivity.

Ltac builder_cases s :=
  destruct s as [objs nxt act md cam mats k w rs msm fs out];
  destruct md;
    [| rewrite run_mbind, run_clear_scene_edit by reflexivity; exact I];
  destruct w as [[u [t |]] |]; run_builder; try exact I; check_built.

Lemma create_microphone_icon_cases s :
  match run blender create_microphone_icon s with
  | (s', inr _) => built create_microphone_icon s s'
  | (_, inl _) => True
  end.
Proof. unfold create_microphone_icon. builder_cases s. Qed.

Lemma create_conversation_bubble_cases s :
  match run blender create_conversation_bubble s with
  | (s', inr _) => built create_conversation_bubble s s'
  | (_, inl _) => True
  end.
Proof. unfold create_conversation_bubble. builder_cases s. Qed.

Lemma create_book_icon_cases s :
  match run blender create_book_icon s with
  | (s', inr _) => built create_book_icon s s'
  | (_, inl _) => True
  end.
Proof. unfold create_book_icon. builder_cases s. Qed.

Lemma create_shield_icon_cases s :
  match run blender create_shield_icon s with
  | (s', inr _) => built create_shield_icon s s'
  | (_, inl _) => True
  end.
Proof. unfold create_shield_icon. builder_cases s. Qed.

Lemma icon_builder_built b s s' :
  icon_builder b -> run blender b s = (s', inr tt) -> built b s s'.
Proof.
  intros Hb Hrun.
  destruct Hb;
    [ pose proof (create_microphone_icon_cases s) as C
    | pose proof (create_conversation_bubble_cases s) as C
    | pose proof (create_book_icon_cases s) as C
    | pose proof (create_shield_icon_cases s) as C ];
    rewrite Hrun in C; exact C.
Qed.

Lemma built_scene_microphone :
  built_scene create_microphone_icon = microphone_scene.
Proof. vm_compute. reflexivity. Qed.

(** C8: when [create_microphone_icon] runs through, from whatever scene,
    the scene holds exactly seven objects: the four cylinders
    Microphone_Capsule, Microphone_Grille, Microphone_Base and
    Microphone_Arm with the radius, depth, location and material each
    was given, the camera Icon_Camera, which is the scene camera, and
    the two lights of [setup_lighting]. *)
Theorem create_microphone_icon_scene (s s' : Host) :
  run blender create_microphone_icon s = (s', inr tt) ->
  scene_objects s' = microphone_scene /\
  scene_camera_object s' = Some (icon_camera false).
Proof.
  intros Hrun.
  destruct (icon_builder_built _ _ _ ib_microphone Hrun) as (Ho & Hc & _).
  split; [rewrite Ho; apply built_scene_microphone | exact Hc].
Qed.

Lemma create_microphone_icon_scene_witness :
  scene_objects (fst (run blender create_microphone_icon startup))
    = microphone_scene /\
  scene_camera_object (fst (run blender create_microphone_icon startup))
    = Some (icon_camera false).
Proof.
  apply (create_microphone_icon_scene startup). vm_compute. reflexivity.
Defined.

Lemma clear_scene_creates_nothing {St : Type}
    (h : forall X : Type, call X -> St -> St * (pyexn + X)) (s : St) :
  Forall (fun ev => creates_object ev = false) (trace h clear_scene s).
Proof.
  unfold clear_scene. cbn.
  repeat match goal with
         | |- context [h ?X ?c ?s] => destruct (h X c s) as [? [? | []]]
         | |- Forall _ (_ :: _) => constructor; [reflexivity |]
         | |- Forall _ [] => constructor
         end.
Qed.

Lemma icon_builder_clears_first b :
  icon_builder b -> exists rest : Prog unit, b = bind clear_scene (fun _ => rest).
Proof. destruct 1; eexists; reflexivity. Qed.

(** C3: each of the four icon builders is [clear_scene] followed by the
    rest of its body, so on any host its first calls are those of
    [clear_scene], none of which adds an object; and when a builder runs
    through, the objects of the scene, the scene camera and the world
    are the same whatever state it was started in. *)
Theorem icon_builder_starts_from_empty_scene (b : Prog unit) :
  icon_builder b ->
  (exists rest : Prog unit, b = bind clear_scene (fun _ => rest)) /\
  (forall (St : Type) (h : forall X : Type, call X -> St -> St * (pyexn + X))
          (s : St),
      exists evs,
        trace h b s = trace h clear_scene s ++ evs /\
        Forall (fun ev => creates_object ev = false) (trace h clear_scene s)) /\
  (forall s1 s2 s1' s2' : Host,
      run blender b s1 = (s1', inr tt) ->
      run blender b s2 = (s2', inr tt) ->
      scene_objects s1' = scene_objects s2' /\
      scene_camera_object s1' = scene_camera_object s2' /\
      world s1' = world s2').
Proof.
  intros Hb. split; [by apply icon_builder_clears_first |]. split.
  - intros St h s.
    destruct (icon_builder_clears_first b Hb) as [rest ->].
    rewrite trace_bind. eexists. split; [reflexivity |].
    apply clear_scene_creates_nothing.
  - intros s1 s2 s1' s2' H1 H2.
    destruct (icon_builder_built _ _ _ Hb H1) as (Ho1 & Hc1 & Hw1 & _).
    destruct (icon_builder_built _ _ _ Hb H2) as (Ho2 & Hc2 & Hw2 & _).
    repeat split; congruence.
Qed.

Lemma icon_builder_starts_from_empty_scene_witness :
  scene_objects (fst (run blender create_book_icon startup))
    = scene_objects (fst (run blender create_book_icon after_microphone)) /\
  scene_camera_object (fst (run blender create_book_icon startup))
    = scene_camera_object (fst (run blender create_book_icon after_microphone)) /\
  world (fst (run blender create_book_icon startup))
    = world (fst (run blender create_book_icon after_microphone)).
Proof.
  apply (proj2 (proj2 (icon_builder_starts_from_empty_scene
                         create_book_icon ib_book))
           startup after_microphone);
    vm_compute; reflexivity.
Defined.

(** ** The orchestrator *)



(** ** Exceptions *)

(** C7: no function of the script contains a handler; so on any host,
    when a run of one of them raises, every call it made before
    succeeded, the raising call is the last one it made, the state is
    the one the host left at that call (nothing is undone), and a caller
    that sequences more code after it raises the same exception in the
    same state without making another call. *)
Theorem exceptions_propagate (A : Type) (p : Prog A) :
  script_function p ->
  no_handler p /\
  forall (St : Type) (h : forall X : Type, call X -> St -> St * (pyexn + X))
         (s s' : St) (e : pyexn),
    run h p s = (s', inl e) ->
    (exists evs (X : Type) (c : call X),
        trace h p s = evs ++ [Event c (inl e)] /\
        Forall (fun ev => raised ev = None) evs /\
        h X c (after h evs s) = (s', inl e)) /\
    (forall (B : Type) (f : A -> Prog B),
        run h (bind p f) s = (s', inl e) /\
        trace h (bind p f) s = trace h p s).
Proof.
  intros Hp. pose proof (script_function_no_handler p Hp) as Hnh.
  split; [exact Hnh |].
  intros St h s s' e Hrun. split.
  - by apply raise_is_last_call.
  - intros B f. rewrite run_bind, trace_bind, Hrun.
    split; [reflexivity | apply app_nil_r].
Qed.

Lemma exceptions_propagate_witness :
  let s' := fst (run blender create_microphone_icon no_world) in
  let e := AttributeError "NoneType" in
  (exists evs (X : Type) (c : call X),
      trace blender create_microphone_icon no_world
        = evs ++ [Event c (inl e)] /\
      Forall (fun ev => raised ev = None) evs /\
      blender X c (after blender evs no_world) = (s', inl e)) /\
  (forall (B : Type) (f : unit -> Prog B),
      run blender (bind create_microphone_icon f) no_world = (s', inl e) /\
      trace blender (bind create_microphone_icon f) no_world
        = trace blender create_microphone_icon no_world).
Proof.
  apply (proj2 (exceptions_propagate unit create_microphone_icon
                  sf_create_microphone_icon) Host blender no_world).
  vm_compute. reflexivity.
Defined.

(** ** Which calls take objects out of the scene *)

Lemma find_map_keys {V : Type} (g : nat * V -> nat * V) id l :
  (forall e, fst (g e) = fst e) ->
  is_Some (find id l) -> is_Some (find id (map g l)).
Proof.
  intros Hg. induction l as [| [i o] l IH]; cbn; [done |].
  specialize (Hg (i, o)). destruct (g (i, o)) as [i' o']. cbn in Hg.
  subst i'. destruct (same_handle i id); eauto.
Qed.

Lemma find_update_is_Some {V : Type} id j (v : V) l :
  is_Some (find id l) -> is_Some (find id (update j v l)).
Proof.
  induction l as [| [i w] l IH]; cbn; [done |].
  destruct (same_handle i j); cbn; destruct (same_handle i id); eauto.
Qed.

Lemma find_remove_ne {V : Type} id old (l : list (nat * V)) :
  id <> old -> find id (remove old l) = find id l.
Proof.
  intros Hne. unfold remove.
  induction l as [| [i w] l IH]; cbn; [reflexivity |].
  destruct (same_handle i old) eqn:E; cbn.
  - apply Nat.eqb_eq in E. subst i.
    rewrite IH, same_handle_neq; [reflexivity | congruence].
  - by rewrite IH.
Qed.

Lemma blender_keeps_objects {X : Type} (c : call X) s id :
  removes_object c = false ->
  is_Some (find id (objects s)) ->
  is_Some (find id (objects (fst (blender X c s)))).
Proof.
  intros Hc Hid.
  destruct s as [objs nxt act md cam mats k w rs msm fs out].
  destruct c; try discriminate Hc; cbn in *;
    unfold in_mode, select_all, on_tree, raise, get_shader; cbn;
    repeat case_match; cbn;
    try (destruct (same_handle nxt id); [eauto |]);
    try assumption;
    try (apply find_map_keys; [intros []; reflexivity | assumption]);
    try (apply find_update_is_Some; assumption).
Qed.

Lemma no_removal_destroys_nothing {A : Type} (p : Prog A) :
  no_removal p -> destroys_nothing p.
Proof.
  induction 1 as [A a | A X c k Hc Hk IH]; intros s id Hid; cbn.
  - exact Hid.
  - pose proof (blender_keeps_objects c s id Hc Hid) as Hstep.
    destruct (blender X c s) as [s1 [e | x]]; [exact Hstep |].
    by apply IH.
Qed.

Lemma nr_host {X : Type} (c : call X) :
  removes_object c = false -> no_removal (host c).
Proof. intros Hc. apply nr_Do; [exact Hc | intros x; apply nr_Ret]. Qed.

Lemma nr_bind {A B : Type} (p : Prog A) (f : A -> Prog B) :
  no_removal p -> (forall a, no_removal (f a)) -> no_removal (p ≫= f).
Proof.
  intros Hp Hf. unfold mbind, Prog_bind.
  induction Hp as [A a | A X c k Hc Hk IH]; cbn.
  - apply Hf.
  - apply nr_Do; [exact Hc | intros x; apply IH, Hf].
Qed.

Ltac no_removal_script :=
  repeat first [ apply nr_host; reflexivity
               | apply nr_bind; [| intros ?]
               | apply nr_Ret ].

Lemma nr_create_material name color m r e :
  no_removal (create_material name color m r e).
Proof. unfold create_material. no_removal_script. Qed.

Lemma nr_setup_lighting : no_removal setup_lighting.
Proof. unfold setup_lighting. no_removal_script. Qed.

Lemma nr_render_icon name size : no_removal (render_icon name size).
Proof. unfold render_icon. no_removal_script. Qed.

Lemma no_removal_accounted {A : Type} (p : Prog A) :
  no_removal p -> removals_accounted p.
Proof. induction 1; [apply ra_Ret | by apply ra_Do]. Qed.

Lemma ra_bind {A B : Type} (p : Prog A) (f : A -> Prog B) :
  removals_accounted p -> (forall a, removals_accounted (f a)) ->
  removals_accounted (p ≫= f).
Proof.
  intros Hp Hf. unfold mbind, Prog_bind.
  induction Hp as [A a | A X c k Hc Hk IH | A k Hk IH | A k Hk IH]; cbn.
  - apply Hf.
  - apply ra_Do; [exact Hc | intros x; apply IH, Hf].
  - apply ra_clear. intros x. apply IH, Hf.
  - apply ra_camera. intros x. apply IH, Hf.
Qed.

Lemma ra_host {X : Type} (c : call X) :
  removes_object c = false -> removals_accounted (host c).
Proof. intros Hc. apply ra_Do; [exact Hc | intros x; apply ra_Ret]. Qed.

Lemma ra_clear_scene : removals_accounted clear_scene.
Proof. apply (ra_clear unit Ret). intros x. apply ra_Ret. Qed.

Lemma ra_setup_icon_camera : removals_accounted setup_icon_camera.
Proof.
  unfold setup_icon_camera.
  apply ra_bind; [by apply ra_host | intros [|]].
  - apply ra_bind.
    + apply (ra_camera unit Ret). intros x. apply ra_Ret.
    + intros _. apply no_removal_accounted. no_removal_script.
  - apply ra_bind; [apply ra_Ret |].
    intros _. apply no_removal_accounted. no_removal_script.
Qed.

Lemma ra_for_enumerate {A : Type} start (l : list A) body :
  (forall i x, removals_accounted (body i x)) ->
  removals_accounted (for_enumerate start l body).
Proof.
  intros Hb. revert start.
  induction l as [| x l IH]; intros start; cbn.
  - apply ra_Ret.
  - apply ra_bind; [apply Hb | intros _; apply IH].
Qed.

Ltac removals_script :=
  repeat first
    [ apply ra_clear_scene | apply ra_setup_icon_camera
    | apply no_removal_accounted, nr_create_material
    | apply no_removal_accounted, nr_setup_lighting
    | apply no_removal_accounted, nr_render_icon
    | apply ra_for_enumerate; intros ? ?
    | apply ra_host; reflexivity
    | apply ra_bind; [| intros ?]
    | apply ra_Ret ].

Lemma ra_create_microphone_icon : removals_accounted create_microphone_icon.
Proof. unfold create_microphone_icon. removals_script. Qed.

Lemma ra_create_conversation_bubble :
  removals_accounted create_conversation_bubble.
Proof. unfold create_conversation_bubble. removals_script. Qed.

Lemma ra_create_book_icon : removals_accounted create_book_icon.
Proof. unfold create_book_icon. removals_script. Qed.

Lemma ra_create_shield_icon : removals_accounted create_shield_icon.
Proof. unfold create_shield_icon. removals_script. Qed.

Lemma script_function_removals {A : Type} (p : Prog A) :
  script_function p -> removals_accounted p.
Proof.
  destruct 1.
  - apply ra_clear_scene.
  - apply no_removal_accounted, nr_create_material.
  - apply no_removal_accounted, nr_setup_lighting.
  - apply ra_create_microphone_icon.
  - apply ra_create_conversation_bubble.
  - apply ra_create_book_icon.
  - apply ra_create_shield_icon.
  - apply ra_setup_icon_camera.
  - apply no_removal_accounted, nr_render_icon.
  - unfold create_all_storyline_icons.
    repeat first
      [ apply ra_create_microphone_icon | apply ra_create_conversation_bubble
      | apply ra_create_book_icon | apply ra_create_shield_icon
      | apply no_removal_accounted, nr_render_icon
      | apply ra_host; reflexivity
      | apply ra_bind; [| intros ?] ].
Qed.

Lemma setup_icon_camera_keeps_others s id :
  is_Some (find id (objects s)) ->
  find_by_name "Camera" (objects s) <> Some id ->
  is_Some (find id (objects (fst (run blender setup_icon_camera s)))).
Proof.
  intros Hid Hcam.
  destruct s as [objs nxt act md cam mats k w rs msm fs out].
  cbn in Hid, Hcam. unfold setup_icon_camera.
  rewrite run_host_bind. cbn -[run mbind].
  destruct (find_by_name "Camera" objs) as [old |] eqn:E.
  - destruct (find_by_name_find _ _ _ E) as [o Ho].
    rewrite run_mbind, run_host_bind. cbn -[run mbind]. rewrite E.
    rewrite run_host. cbn -[run mbind]. rewrite Ho. cbn -[run mbind].
    apply no_removal_destroys_nothing; [no_removal_script |].
    cbn. rewrite find_remove_ne; [assumption |].
    intros ->. by apply Hcam.
  - rewrite run_mbind, run_mret. cbn -[run mbind].
    apply no_removal_destroys_nothing; [no_removal_script | assumption].
Qed.

(** C9, as the code has it: every call of the script that takes an
    object out of the scene is either the delete of [clear_scene] or, in
    [setup_icon_camera], the removal of the object looked up under the
    name "Camera"; no other host call the script makes removes an
    object, so [create_material], [setup_lighting] and [render_icon]
    leave every object in the scene, and [setup_icon_camera] leaves
    every object but the one named "Camera" that it looks up. *)
Theorem objects_removed_only_by_clear_and_default_camera :
  (forall (A : Type) (p : Prog A),
      script_function p -> removals_accounted p) /\
  (forall (X : Type) (c : call X) (s : Host) (id : objref),
      removes_object c = false ->
      is_Some (find id (objects s)) ->
      is_Some (find id (objects (fst (blender X c s))))) /\
  (forall name color metallic roughness emission,
      destroys_nothing (create_material name color metallic roughness emission)) /\
  destroys_nothing setup_lighting /\
  (forall name size, destroys_nothing (render_icon name size)) /\
  (forall (s : Host) (id : objref),
      is_Some (find id (objects s)) ->
      find_by_name "Camera" (objects s) <> Some id ->
      is_Some (find id (objects (fst (run blender setup_icon_camera s))))).
Proof.
  split; [intros A p; apply script_function_removals |].
  split; [intros X c s id; apply blender_keeps_objects |].
  split; [intros; apply no_removal_destroys_nothing, nr_create_material |].
  split; [apply no_removal_destroys_nothing, nr_setup_lighting |].
  split; [intros; apply no_removal_destroys_nothing, nr_render_icon |].
  apply setup_icon_camera_keeps_others.
Qed.

Lemma objects_removed_only_by_clear_and_default_camera_witness :
  is_Some (find 0 (objects (fst (run blender setup_icon_camera startup)))).
Proof.
  apply (proj2 (proj2 (proj2 (proj2 (proj2
           objects_removed_only_by_clear_and_default_camera)))) startup 0).
  - vm_compute. eauto.
  - vm_compute. discriminate.
Defined.

(** C9, as the spec words it, fails: started in a new file,
    [setup_icon_camera] runs through and the object named "Camera" that
    was in the scene is gone. *)
Lemma setup_icon_camera_removes_default_camera :
  ~ destroys_nothing setup_icon_camera.
Proof.
  intros H. destruct (H startup 2) as [o Ho].
  - vm_compute. eauto.
  - vm_compute in Ho. discriminate Ho.
Qed.

(** Every key the script looks up in [COLORS] is there. *)
Lemma COLORS_keys :
  COLORS !! "soft_plum" = Some soft_plum /\
  COLORS !! "ink_black" = Some ink_black /\
  COLORS !! "warm_ochre" = Some (0.894%Q, 0.702%Q, 0.388%Q, 1.0%Q) /\
  COLORS !! "soft_white" = Some (0.98%Q, 0.98%Q, 0.98%Q, 1.0%Q).
Proof. repeat split; reflexivity. Qed.

(** * Further properties of the script *)

(** ** What each builder does, case by case *)

Ltac outcome_facts :=
  cbn -[allocated made icon_scene unlit_scene];
  repeat match goal with |- _ /\ _ => split end;
  first
    [ reflexivity
    | unfold scene_objects, resolve; cbn; handles; vm_compute; reflexivity
    | vm_compute; reflexivity ].

Ltac outcome s :=
  destruct s as [objs nxt act md cam mats k w rs msm fs out];
  unfold builder_outcome; cbn [mode world builder_of];
  unfold create_microphone_icon, create_conversation_bubble,
    create_book_icon, create_shield_icon;
  destruct md;
    [| rewrite run_mbind, run_clear_scene_edit by reflexivity; reflexivity];
  destruct w as [[u [t |]] |];
    (eexists; split; [run_builder; reflexivity | outcome_facts]).

Lemma microphone_outcome s : builder_outcome Microphone s.
Proof. outcome s. Qed.

Lemma conversation_bubble_outcome s : bubble_outcome s.
Proof.
  destruct s as [objs nxt act md cam mats k w rs msm fs out].
  unfold bubble_outcome. cbn [mode]. unfold create_conversation_bubble.
  destruct md;
    [| rewrite run_mbind, run_clear_scene_edit by reflexivity; reflexivity].
  eexists; split; [run_builder; reflexivity | outcome_facts].
Qed.

Lemma bubble_never s s' :
  run blender create_conversation_bubble s <> (s', inr tt).
Proof.
  intros H. pose proof (conversation_bubble_outcome s) as O.
  unfold bubble_outcome in O.
  destruct (mode s); [destruct O as (s1 & O & _) |];
    rewrite H in O; discriminate O.
Qed.

Lemma book_outcome s : builder_outcome Book s.
Proof. outcome s. Qed.

Lemma shield_outcome s : builder_outcome Shield s.
Proof. outcome s. Qed.

Lemma icon_outcome i s : i <> ConversationBubble -> builder_outcome i s.
Proof.
  destruct i; intros Hi;
    [ apply microphone_outcome | by destruct Hi
    | apply book_outcome | apply shield_outcome ].
Qed.

Lemma icon_success i s s' :
  run blender (builder_of i) s = (s', inr tt) ->
  mode s = ObjectMode /\ world s <> None /\
  scene_objects s' = icon_scene i /\
  materials s' = allocated (next_material s) (made i) ++ materials s /\
  next_material s' = length (made i) + next_material s /\
  next_object s' = length (icon_scene i) + next_object s /\
  active_object s' = Some (length (meshes i) + 2 + next_object s) /\
  scene_camera s' = Some (length (meshes i) + next_object s) /\
  mesh_select_mode s' = select_mode_after i (mesh_select_mode s) /\
  stdout s' = stdout s ++ [created_line i].
Proof.
  intros Hrun.
  assert (Hi : i <> ConversationBubble)
    by (intros ->; exact (bubble_never _ _ Hrun)).
  pose proof (icon_outcome i s Hi) as O.
  unfold builder_outcome in O.
  destruct (mode s); [| rewrite Hrun in O; discriminate O].
  destruct (world s) as [w |].
  - destruct O as (s1 & Hr & O). rewrite Hrun in Hr.
    injection Hr as Hs. subst s1.
    split; [reflexivity |]. split; [discriminate | exact O].
  - destruct O as (s1 & Hr & _). rewrite Hrun in Hr. discriminate Hr.
Qed.

Lemma icon_builder_of i : icon_builder (builder_of i).
Proof. destruct i; constructor. Qed.

(** ** When a builder runs through, and what it leaves when it does not *)

(** The microphone, book and shield builders run through exactly when
    they are started in Object mode in a scene that has a world. *)
Theorem icon_builder_runs_iff (i : icon) (s : Host) :
  i <> ConversationBubble ->
  (exists s', run blender (builder_of i) s = (s', inr tt)) <->
  mode s = ObjectMode /\ world s <> None.
Proof.
  intros Hi. split.
  - intros [s' Hrun]. destruct (icon_success i s s' Hrun) as (Hm & Hw & _).
    by split.
  - intros [Hm Hw]. pose proof (icon_outcome i s Hi) as O.
    unfold builder_outcome in O. rewrite Hm in O.
    destruct (world s) as [w |]; [| done].
    destruct O as (s' & Hr & _). by exists s'.
Qed.

Lemma icon_builder_runs_iff_witness :
  (exists s', run blender create_book_icon startup = (s', inr tt)) <->
  mode startup = ObjectMode /\ world startup <> None.
Proof. apply (icon_builder_runs_iff Book startup). discriminate. Defined.

(** Started in Edit mode, an icon builder raises at the first call of
    [clear_scene] and leaves the host exactly as it was. *)
Theorem icon_builder_in_edit_mode (i : icon) (s : Host) :
  mode s = EditMode ->
  run blender (builder_of i) s = (s, inl poll_failed).
Proof.
  intros Hm.
  assert (Hi : i = ConversationBubble \/ i <> ConversationBubble)
    by (destruct i; (by left) || (by right)).
  destruct Hi as [-> | Hi].
  - pose proof (conversation_bubble_outcome s) as O.
    unfold bubble_outcome in O. by rewrite Hm in O.
  - pose proof (icon_outcome i s Hi) as O.
    unfold builder_outcome in O. by rewrite Hm in O.
Qed.

Lemma icon_builder_in_edit_mode_witness :
  run blender create_shield_icon editing = (editing, inl poll_failed).
Proof. apply (icon_builder_in_edit_mode Shield editing). reflexivity. Defined.

(** Started in Object mode in a scene without a world, the microphone,
    book and shield builders raise AttributeError in [setup_lighting],
    after the old scene has been cleared and their materials, meshes and
    camera have been made: these stay, no light is added and nothing is
    printed. *)
Theorem icon_builder_without_world (i : icon) (s : Host) :
  i <> ConversationBubble ->
  mode s = ObjectMode -> world s = None ->
  exists s',
    run blender (builder_of i) s = (s', inl (AttributeError "NoneType")) /\
    scene_objects s' = meshes i ++ [icon_camera true] /\
    materials s' = allocated (next_material s) (made i) ++ materials s /\
    stdout s' = stdout s /\
    files s' = files s.
Proof.
  intros Hi Hm Hw. pose proof (icon_outcome i s Hi) as O.
  unfold builder_outcome in O. rewrite Hm, Hw in O.
  destruct O as (s' & Hr & Ho & Hmat & _ & Hout & Hf).
  exists s'. by repeat split.
Qed.

Lemma icon_builder_without_world_witness :
  exists s',
    run blender create_book_icon no_world
      = (s', inl (AttributeError "NoneType")) /\
    scene_objects s' = meshes Book ++ [icon_camera true] /\
    materials s' = allocated 0 (made Book) ++ [] /\
    stdout s' = [] /\
    files s' = [].
Proof.
  apply (icon_builder_without_world Book no_world);
    [discriminate | reflexivity | reflexivity].
Defined.

(** ** The other three builders *)

(** [create_conversation_bubble] never runs through: the host names the
    modifier it adds "Subdivision", and the script looks it up as
    "Subdivision Surface".  Started in Object mode it raises KeyError at
    that lookup, whatever the world: by then the old scene is cleared,
    the two materials are made, and the scene holds the renamed cube
    alone, with the modifier at no level, flat shaded and without a
    material; nothing is printed and no file is written. *)
Theorem create_conversation_bubble_raises (s : Host) :
  (forall s', run blender create_conversation_bubble s <> (s', inr tt)) /\
  (mode s = ObjectMode ->
   exists s',
     run blender create_conversation_bubble s
       = (s', inl (KeyError "Subdivision Surface")) /\
     scene_objects s' =
       [ Object "Conversation_Bubble" (MeshData (Cube 2%Q) false [])
           (0%Q, 0%Q, 0.5%Q) (0%Q, 0%Q, 0%Q) (1%Q, 1%Q, 1%Q) true
           [Modifier "Subdivision" "SUBSURF" None] ] /\
     materials s' =
       allocated (next_material s) (made ConversationBubble) ++ materials s /\
     stdout s' = stdout s /\
     files s' = files s).
Proof.
  split; [intros s'; apply bubble_never |].
  intros Hm. pose proof (conversation_bubble_outcome s) as O.
  unfold bubble_outcome in O. rewrite Hm in O.
  destruct O as (s' & Hr & Ho & Hmat & _ & Hout & Hf).
  exists s'. by repeat split.
Qed.

Lemma create_conversation_bubble_raises_witness :
  exists s',
    run blender create_conversation_bubble startup
      = (s', inl (KeyError "Subdivision Surface")) /\
    scene_objects s' =
      [ Object "Conversation_Bubble" (MeshData (Cube 2%Q) false [])
          (0%Q, 0%Q, 0.5%Q) (0%Q, 0%Q, 0%Q) (1%Q, 1%Q, 1%Q) true
          [Modifier "Subdivision" "SUBSURF" None] ] /\
    materials s' =
      allocated (next_material startup) (made ConversationBubble)
      ++ materials startup /\
    stdout s' = stdout startup /\
    files s' = files startup.
Proof.
  apply (proj2 (create_conversation_bubble_raises startup)). reflexivity.
Defined.

(** When [create_book_icon] runs through, from whatever scene, the scene
    holds exactly six objects: the cubes Book_Cover, Book_Pages and
    Bookmark, each with the scale and the material it was given, the
    camera and the two lights. *)
Theorem create_book_icon_scene (s s' : Host) :
  run blender create_book_icon s = (s', inr tt) ->
  scene_objects s' = icon_scene Book /\
  map (fun o => (obj_name o, obj_scale o)) (take 3 (scene_objects s')) =
    [ ("Book_Cover", (1.2%Q, 0.1%Q, 1.6%Q));
      ("Book_Pages", (1.1%Q, 0.08%Q, 1.5%Q));
      ("Bookmark", (0.1%Q, 0.12%Q, 0.8%Q)) ].
Proof.
  intros Hrun.
  destruct (icon_success Book s s' Hrun) as (_ & _ & Ho & _).
  split; [exact Ho | by rewrite Ho].
Qed.

Lemma create_book_icon_scene_witness :
  scene_objects (fst (run blender create_book_icon startup))
    = icon_scene Book /\
  map (fun o => (obj_name o, obj_scale o))
    (take 3 (scene_objects (fst (run blender create_book_icon startup)))) =
    [ ("Book_Cover", (1.2%Q, 0.1%Q, 1.6%Q));
      ("Book_Pages", (1.1%Q, 0.08%Q, 1.5%Q));
      ("Bookmark", (0.1%Q, 0.12%Q, 0.8%Q)) ].
Proof.
  apply (create_book_icon_scene startup). vm_compute. reflexivity.
Defined.

(** When [create_shield_icon] runs through, from whatever scene, the
    scene holds exactly seven objects: the smooth cylinder Safety_Shield,
    the spheres Heart_Left, moved to x = -0.15 after it was added at
    x = 0, and Heart_Right, the cone Heart_Point turned by
    [math.radians(180)] about x, the camera and the two lights; the host
    is back in Object mode and its vertex select mode is VERT. *)
Theorem create_shield_icon_scene (s s' : Host) :
  run blender create_shield_icon s = (s', inr tt) ->
  scene_objects s' = icon_scene Shield /\
  mode s' = ObjectMode /\
  mesh_select_mode s' = "VERT".
Proof.
  intros Hrun.
  destruct (icon_success Shield s s' Hrun)
    as (_ & _ & Ho & _ & _ & _ & _ & _ & Hsel & _).
  destruct (icon_builder_built _ _ _ ib_shield Hrun) as (_ & _ & _ & Hm & _).
  by repeat split.
Qed.

Lemma create_shield_icon_scene_witness :
  scene_objects (fst (run blender create_shield_icon startup))
    = icon_scene Shield /\
  mode (fst (run blender create_shield_icon startup)) = ObjectMode /\
  mesh_select_mode (fst (run blender create_shield_icon startup)) = "VERT".
Proof.
  apply (create_shield_icon_scene startup). vm_compute. reflexivity.
Defined.

(** ** Materials pile up *)

(** [clear_scene] deletes objects, not materials: building an icon a
    second time leaves the same scene as the first time, and a second
    copy of each of its materials in the material store, ahead of the
    first copies and of everything that was there before. *)
Theorem rebuilding_duplicates_materials (i : icon) (s s1 s2 : Host) :
  run blender (builder_of i) s = (s1, inr tt) ->
  run blender (builder_of i) s1 = (s2, inr tt) ->
  scene_objects s2 = scene_objects s1 /\
  materials s2 =
    allocated (length (made i) + next_material s) (made i)
    ++ allocated (next_material s) (made i) ++ materials s.
Proof.
  intros H1 H2.
  destruct (icon_success i s s1 H1) as (_ & _ & Ho1 & Hm1 & Hn1 & _).
  destruct (icon_success i s1 s2 H2) as (_ & _ & Ho2 & Hm2 & _).
  split; [congruence |]. by rewrite Hm2, Hn1, Hm1.
Qed.

Lemma rebuilding_duplicates_materials_witness :
  let s1 := fst (run blender create_microphone_icon startup) in
  let s2 := fst (run blender create_microphone_icon s1) in
  scene_objects s2 = scene_objects s1 /\
  materials s2 =
    allocated 3 (made Microphone) ++ allocated 0 (made Microphone) ++ [].
Proof.
  apply (rebuilding_duplicates_materials Microphone startup);
    vm_compute; reflexivity.
Defined.

(** ** The helpers, at their edges *)

(** In Object mode [clear_scene] removes every object, selected before
    or not, and with them the active object and the scene camera; it
    keeps the materials, the world, the render settings and the object
    counter.  In Edit mode it raises and changes nothing. *)
Theorem clear_scene_empties_scene (s : Host) :
  match mode s with
  | ObjectMode =>
      exists s',
        run blender clear_scene s = (s', inr tt) /\
        objects s' = [] /\
        active_object s' = None /\
        scene_camera s' = None /\
        materials s' = materials s /\
        world s' = world s /\
        render s' = render s /\
        next_object s' = next_object s
  | EditMode => run blender clear_scene s = (s, inl poll_failed)
  end.
Proof.
  destruct (mode s) eqn:Hm.
  - exists (cleared s). rewrite run_clear_scene by exact Hm.
    by destruct s.
  - by apply run_clear_scene_edit.
Qed.

(** Without a scene camera [render_icon] raises at the render operator:
    the four render settings have been assigned by then and stay
    assigned, no file is written and nothing is printed. *)
Theorem render_icon_without_camera (name : string) (size : option Z)
    (s : Host) :
  scene_camera s = None ->
  exists s',
    run blender (render_icon name size) s
      = (s', inl (RuntimeError "Cannot render, no camera")) /\
    render s' =
      RenderSettings (default 1024%Z size) (default 1024%Z size) true
        (icons_dir +:+ name +:+ "_" +:+ str (default 1024%Z size) +:+ ".png") /\
    files s' = files s /\
    stdout s' = stdout s /\
    objects s' = objects s.
Proof.
  intros Hc. rewrite run_render_icon, Hc. cbv zeta.
  eexists. split; [reflexivity |]. by destruct s.
Qed.

Lemma render_icon_without_camera_witness :
  exists s',
    run blender (render_icon "book" (Some 64%Z)) no_camera
      = (s', inl (RuntimeError "Cannot render, no camera")) /\
    render s' =
      RenderSettings 64 64 true
        (icons_dir +:+ "book" +:+ "_" +:+ str 64 +:+ ".png") /\
    files s' = files no_camera /\
    stdout s' = stdout no_camera /\
    objects s' = objects no_camera.
Proof.
  apply (render_icon_without_camera "book" (Some 64%Z) no_camera).
  reflexivity.
Defined.

Lemma rendered_files name n s :
  files (rendered name n s) =
  files s ++ [(icons_dir +:+ name +:+ "_" +:+ str n +:+ ".png",
               Image n n true (scene_objects s))].
Proof. by destruct s. Qed.

Lemma rendered_fields name n s :
  scene_objects (rendered name n s) = scene_objects s /\
  mode (rendered name n s) = mode s /\
  world (rendered name n s) = world s /\
  materials (rendered name n s) = materials s /\
  stdout (rendered name n s) =
    stdout s ++ ["✅ Rendered " +:+ name +:+ " icon at " +:+ str n +:+ "px"] /\
  render (rendered name n s) =
    RenderSettings n n true (icons_dir +:+ name +:+ "_" +:+ str n +:+ ".png").
Proof. by destruct s. Qed.

(** After an icon builder has run through, the scene camera is the
    Icon_Camera it added, so that [render_icon] does not stop for want
    of a camera; and whenever a [render_icon] that follows goes through,
    whatever its name and size, the image it writes shows the icon's
    scene, and the scene is left as built. *)
Theorem render_icon_after_builder (i : icon) (name : string)
    (size : option Z) (s s1 : Host) :
  run blender (builder_of i) s = (s1, inr tt) ->
  scene_camera_object s1 = Some (icon_camera false) /\
  (forall s2,
     run blender (render_icon name size) s1 = (s2, inr tt) ->
     files s2 =
       files s ++
       [(icons_dir +:+ name +:+ "_" +:+ str (default 1024%Z size) +:+ ".png",
         Image (default 1024%Z size) (default 1024%Z size) true
           (icon_scene i))] /\
     scene_objects s2 = icon_scene i).
Proof.
  intros Hrun.
  destruct (icon_success i s s1 Hrun) as (_ & _ & Ho & _ & _ & _ & _ & Hc & _).
  destruct (icon_builder_built _ _ _ (icon_builder_of i) Hrun)
    as (_ & Hcam & _ & _ & _ & Hf & _).
  split; [exact Hcam |].
  intros s2. rewrite run_render_icon, Hc. cbv zeta. intros [= <-].
  destruct (rendered_fields name (default 1024%Z size) s1) as (Fo & _).
  rewrite Fo, rendered_files, Hf, Ho. by split.
Qed.

Lemma render_icon_after_builder_witness :
  scene_camera_object (fst (run blender create_book_icon startup))
    = Some (icon_camera false) /\
  (forall s2,
     run blender (render_icon "cover" None)
       (fst (run blender create_book_icon startup)) = (s2, inr tt) ->
     files s2 =
       files startup ++
       [(icons_dir +:+ "cover" +:+ "_" +:+ str 1024 +:+ ".png",
         Image 1024 1024 true (icon_scene Book))] /\
     scene_objects s2 = icon_scene Book).
Proof.
  apply (render_icon_after_builder Book "cover" None startup).
  vm_compute. reflexivity.
Defined.

(** Two calls of [create_material], whatever their arguments and even
    with the same name, give two different materials, each with the
    shader its own arguments ask for; neither call touches the objects,
    the world, the render settings, the files or the console. *)
Theorem create_material_twice
    (n1 n2 : string) (c1 c2 : rgba) (m1 r1 e1 m2 r2 e2 : option Q)
    (s : Host) :
  exists (a b : matref) (s1 s2 : Host),
    run blender (create_material n1 c1 m1 r1 e1) s = (s1, inr a) /\
    run blender (create_material n2 c2 m2 r2 e2) s1 = (s2, inr b) /\
    a <> b /\
    find a (materials s2) =
      Some (Mat n1 (principled c1 (default 0.1%Q m1) (default 0.3%Q r1)
                      (default 0.0%Q e1))) /\
    find b (materials s2) =
      Some (Mat n2 (principled c2 (default 0.1%Q m2) (default 0.3%Q r2)
                      (default 0.0%Q e2))) /\
    objects s2 = objects s /\ world s2 = world s /\ render s2 = render s /\
    files s2 = files s /\ stdout s2 = stdout s.
Proof.
  eexists _, _, _, _.
  split; [apply run_create_material |].
  split; [apply run_create_material |].
  destruct s as [objs nxt act md cam mats k w rs msm fs out]. cbn.
  split; [lia |]. handles. by repeat split.
Qed.

Lemma setup_lighting_failures s :
  match world s, mode s with
  | None, _ => run blender setup_lighting s = (s, inl (AttributeError "NoneType"))
  | Some _, EditMode =>
      exists s',
        run blender setup_lighting s = (s', inl poll_failed) /\
        world s' = Some lighting_world /\
        objects s' = objects s
  | Some _, ObjectMode => True
  end.
Proof.
  destruct s as [objs nxt act md cam mats k w rs msm fs out].
  unfold setup_lighting. cbn [world mode].
  destruct w as [[u [t |]] |], md; try exact I;
    try (eexists; split; [steps; reflexivity | by split]);
    steps; reflexivity.
Qed.

(** [setup_lighting] in a scene without a world raises AttributeError at
    its first assignment and changes nothing; in Edit mode with a world
    it raises at the first light, after it has replaced the world's
    nodes, and adds no object. *)
Theorem setup_lighting_raises (s : Host) :
  (world s = None ->
   run blender setup_lighting s = (s, inl (AttributeError "NoneType"))) /\
  (world s <> None -> mode s = EditMode ->
   exists s',
     run blender setup_lighting s = (s', inl poll_failed) /\
     world s' = Some lighting_world /\
     objects s' = objects s).
Proof.
  pose proof (setup_lighting_failures s) as F. split.
  - intros Hw. by rewrite Hw in F.
  - intros Hw Hm. rewrite Hm in F. by destruct (world s).
Qed.

Lemma setup_lighting_raises_witness :
  run blender setup_lighting no_world
    = (no_world, inl (AttributeError "NoneType")) /\
  exists s',
    run blender setup_lighting editing = (s', inl poll_failed) /\
    world s' = Some lighting_world /\
    objects s' = objects editing.
Proof.
  split.
  - apply (proj1 (setup_lighting_raises no_world)). reflexivity.
  - apply (proj2 (setup_lighting_raises editing));
      [vm_compute; discriminate | reflexivity].
Defined.

(** ** The orchestrator, from start to end *)





(** Started in Object mode in a scene without a world, a full run stops
    in the first builder: it has printed its first line only, has
    rendered nothing, and leaves the microphone's meshes and camera,
    unlit, in the scene. *)
Theorem create_all_storyline_icons_without_world (s : Host) :
  mode s = ObjectMode -> world s = None ->
  exists s',
    run blender create_all_storyline_icons s
      = (s', inl (AttributeError "NoneType")) /\
    files s' = files s /\
    stdout s' = stdout s ++ ["🎨 Creating Storyline icons..."] /\
    scene_objects s' = meshes Microphone ++ [icon_camera true].
Proof.
  intros Hm Hw.
  destruct s as [objs nxt act md cam mats k w rs msm fs out].
  cbn in Hm, Hw. subst md w.
  assert (Hi : Microphone <> ConversationBubble) by discriminate.
  pose proof (icon_outcome Microphone
                (MkHost objs nxt act ObjectMode cam mats k None rs msm fs
                   (out ++ ["🎨 Creating Storyline icons..."])) Hi) as O.
  unfold builder_outcome in O. cbn [mode world builder_of] in O.
  destruct O as (s' & Hr & Ho & _ & _ & Hout & Hf).
  unfold create_all_storyline_icons.
  rewrite run_host_bind. cbn -[run mbind]. rewrite run_mbind, Hr.
  exists s'. cbn in Hout, Hf. by repeat split.
Qed.

Lemma create_all_storyline_icons_without_world_witness :
  exists s',
    run blender create_all_storyline_icons no_world
      = (s', inl (AttributeError "NoneType")) /\
    files s' = files no_world /\
    stdout s' = stdout no_world ++ ["🎨 Creating Storyline icons..."] /\
    scene_objects s' = meshes Microphone ++ [icon_camera true].
Proof.
  apply (create_all_storyline_icons_without_world no_world); reflexivity.
Defined.

(** ** Call order, on any host *)

(** On any host, the calls [render_icon] makes are an initial part of:
    the two resolution assignments, the film transparency, the file
    path, the render operator with [write_still=True], and [print];
    when it runs through it has made all six, so the settings are
    always in place before the render starts. *)
Theorem render_icon_call_order {St : Type}
    (h : forall X : Type, call X -> St -> St * (pyexn + X))
    (name : string) (size : option Z) (s : St) :
  map call_of (trace h (render_icon name size) s)
    `prefix_of` render_icon_calls_in_order name (default 1024%Z size) /\
  (forall s', run h (render_icon name size) s = (s', inr tt) ->
     map call_of (trace h (render_icon name size) s)
       = render_icon_calls_in_order name (default 1024%Z size)).
Proof.
  unfold render_icon, render_icon_calls_in_order. cbn.
  repeat match goal with
         | |- context [h ?X ?c ?t] => destruct (h X c t) as [? [? | []]]
         end;
    cbn; (split; [| first [discriminate | reflexivity]]);
    repeat (apply prefix_cons); apply prefix_nil.
Qed.

Lemma render_icon_call_order_witness :
  map call_of (trace blender (render_icon "book" None) startup)
    = render_icon_calls_in_order "book" 1024.
Proof.
  apply (proj2 (render_icon_call_order blender "book" None startup)
           (fst (run blender (render_icon "book" None) startup))).
  reflexivity.
Defined.

(** On any host, when [create_material] runs through, its trace is the
    ten calls of its body, each answered: it returns the very handle the
    host answered [materials.new] with, enables and clears the nodes of
    that material, sets the four inputs on the very node the host
    answered the first [nodes.new] with, and links that node to the one
    it answered the second with. *)
Theorem create_material_call_order {St : Type}
    (h : forall X : Type, call X -> St -> St * (pyexn + X))
    (name : string) (color : rgba) (metallic roughness emission : option Q)
    (s s' : St) (mat : matref) :
  run h (create_material name color metallic roughness emission) s
    = (s', inr mat) ->
  exists bsdf output : noderef,
    trace h (create_material name color metallic roughness emission) s
    = create_material_events name color
        (default 0.1%Q metallic) (default 0.3%Q roughness)
        (default 0.0%Q emission) mat bsdf output.
Proof.
  unfold create_material, create_material_events. cbn.
  repeat match goal with
         | |- context [h ?X ?c ?t] =>
             let x := fresh "x" in destruct (h X c t) as [? [? | x]];
             try destruct x
         end;
    cbn; intros Hrun; try discriminate Hrun;
    injection Hrun as _ ->; eauto.
Qed.

Lemma create_material_call_order_witness :
  exists bsdf output : noderef,
    trace blender (create_material "Dots" soft_white None None None) startup
    = create_material_events "Dots" soft_white 0.1%Q 0.3%Q 0.0%Q
        0 bsdf output.
Proof.
  apply (create_material_call_order blender "Dots" soft_white None None None
           startup
           (fst (run blender (create_material "Dots" soft_white None None None)
                   startup))).
  vm_compute. reflexivity.
Defined.
